(** * A shallow embedding of the page-fetch and DOM-extraction pipeline
    of [scrape.py] (AI_Webscraper), with proofs of its specification.

    Python [str] values are modelled as Rocq [string]s (the UTF-8 bytes of
    the text).  The delimiters the code looks for by name are ASCII, so
    finding, splitting and prefix tests behave on bytes as they do on code
    points.  The operations that work on characters ([len], slicing,
    [list(s)], [str.strip], [str.splitlines], the [\s] class of [re]) count
    and match code points and their UTF-8 encodings, which is exact on valid
    UTF-8 text.

    Library code the repository calls but does not contain is modelled as
    follows:
    - [urllib.parse] ([urlsplit], [urlparse], [urlunparse], [urljoin]) is
      translated from CPython 3.12 for ASCII text, leaving out the IPv6
      literal validation of bracketed hosts;
    - the HTML tree builder of BeautifulSoup and the regular expression
      engine [re.findall] are left abstract: the functions that use them
      take them as arguments (record [lib]), so every theorem holds for
      every behaviour they may have; this includes the parser rejecting
      the markup with [ParserRejectedMarkup];
    - the network and the browser are oracles returning a response or
      raising an exception;
    - [print] writes its message and never raises. *)

From Stdlib Require Import Ascii.
From stdpp Require Import base list gmap sets strings.

Open Scope stdpp_scope.
Set Warnings "-register-all,-abstract-large-number".

(* ------------------------------------------------------------------ *)
(** ** Exceptions *)

(** The Python exceptions the modelled code can raise. *)
Inductive exn :=
| ValueError
| AttributeError
| TypeError
| ConnectionError
| WebDriverException
| ParserRejectedMarkup.

(** A computation that returns a value or raises. *)
Inductive result (A : Type) :=
| Ok (a : A)
| Raise (e : exn).
Arguments Ok {A} a.
Arguments Raise {A} e.

Global Instance result_ret : MRet result := fun A a => Ok a.
Global Instance result_bind : MBind result :=
  fun A B (k : A -> result B) m =>
    match m with Ok a => k a | Raise e => Raise e end.

(** [for x in xs: f(x)] collecting results, stopping at the first raise. *)
Fixpoint mapM {A B} (f : A -> result B) (xs : list A) : result (list B) :=
  match xs with
  | [] => Ok []
  | x :: xs' => y ← f x; ys ← mapM f xs'; Ok (y :: ys)
  end.

(* ------------------------------------------------------------------ *)
(** ** Python string operations *)

Module Py.

Definition of_list (l : list ascii) : string := String.string_of_list_ascii l.
Definition to_list (s : string) : list ascii := String.list_ascii_of_string s.

(** [s == ""] *)
Definition is_empty (s : string) : bool :=
  match s with EmptyString => true | _ => false end.

Definition str_eqb (a b : string) : bool := String.eqb a b.

(** [s.startswith(p)] *)
Definition startswith (s p : string) : bool := String.prefix p s.

(** [c in s] for a character. *)
Definition contains_char (c : ascii) (s : string) : bool :=
  existsb (fun d => Ascii.eqb c d) (to_list s).

(** [s.find(c)] for a character, [None] standing for [-1]. *)
Fixpoint find_char (c : ascii) (s : string) : option nat :=
  match s with
  | EmptyString => None
  | String d r => if Ascii.eqb c d then Some 0 else S <$> find_char c r
  end.

(** [s.rfind(c)] *)
Definition rfind_char (c : ascii) (s : string) : option nat :=
  match find_char c (of_list (rev (to_list s))) with
  | Some i => Some (String.length s - 1 - i)
  | None => None
  end.

(** [s[:n]] and [s[n:]] *)
Definition take (n : nat) (s : string) : string := String.substring 0 n s.
Definition drop (n : nat) (s : string) : string :=
  String.substring n (String.length s - n) s.

(** [s.split(c, 1)] when [c in s]: the text before and after the first [c]. *)
Definition split1 (c : ascii) (s : string) : string * string :=
  match find_char c s with
  | Some i => (take i s, drop (S i) s)
  | None => (s, "")
  end.

(** [s.split(c)] *)
Fixpoint split_aux (c : ascii) (l : list ascii) (cur : list ascii)
  : list string :=
  match l with
  | [] => [of_list (rev cur)]
  | d :: r => if Ascii.eqb c d then of_list (rev cur) :: split_aux c r []
              else split_aux c r (d :: cur)
  end.
Definition split (c : ascii) (s : string) : list string :=
  split_aux c (to_list s) [].

(** [sep.join(parts)] *)
Definition join (sep : string) (parts : list string) : string :=
  String.concat sep parts.

(** [s.lstrip(chars)] and [s.rstrip(chars)] for a set of ASCII
    characters given by its test. *)
Fixpoint lstrip_by (p : ascii -> bool) (s : string) : string :=
  match s with
  | EmptyString => EmptyString
  | String c r => if p c then lstrip_by p r else s
  end.
Definition rstrip_by (p : ascii -> bool) (s : string) : string :=
  of_list (rev (to_list (lstrip_by p (of_list (rev (to_list s)))))).

(** A UTF-8 continuation byte (10xxxxxx); every other byte starts a
    character. *)
Definition is_cont (c : ascii) : bool :=
  let n := nat_of_ascii c in (128 <=? n) && (n <? 192).

(** [len(s)]: the number of characters, i.e. of bytes that start one. *)
Fixpoint len_bytes (l : list ascii) : nat :=
  match l with
  | [] => 0
  | c :: r => (if is_cont c then 0 else 1) + len_bytes r
  end.
Definition len (s : string) : nat := len_bytes (to_list s).

(** [s[:n]]: the bytes before the start of the character at index [n]. *)
Fixpoint take_chars (n : nat) (l : list ascii) : list ascii :=
  match l with
  | [] => []
  | c :: r =>
      if is_cont c then c :: take_chars n r
      else match n with 0 => [] | S m => c :: take_chars m r end
  end.
Definition slice_to (n : nat) (s : string) : string := of_list (take_chars n (to_list s)).

(** [list(s)]: the bytes of each character; a piece starts at every byte
    that starts a character. *)
Fixpoint chars_of (l : list ascii) : list (list ascii) :=
  match l with
  | [] => []
  | c :: r =>
      match chars_of r with
      | (d :: p) :: ps => if is_cont d then (c :: d :: p) :: ps else [c] :: (d :: p) :: ps
      | ps => [c] :: ps
      end
  end.
Definition chars (s : string) : list string := map of_list (chars_of (to_list s)).

Definition bytes (ns : list nat) : list ascii := map ascii_of_nat ns.

(** The characters of [str.isspace] (those [\s] matches in a [str]
    pattern), as UTF-8 byte sequences: \t \n \x0b \x0c \r, \x1c..\x1f,
    space, U+0085, U+00A0, U+1680, U+2000..U+200A, U+2028, U+2029,
    U+202F, U+205F and U+3000. *)
Definition space_chars : list (list ascii) :=
  map bytes
    ([[9]; [10]; [11]; [12]; [13]; [28]; [29]; [30]; [31]; [32];
      [194; 133]; [194; 160]; [225; 154; 128]]
     ++ map (fun k => [226; 128; k]) (seq 128 11)
     ++ [[226; 128; 168]; [226; 128; 169]; [226; 128; 175]; [226; 129; 159];
         [227; 128; 128]]).

(** [l] starts with the bytes [w]. *)
Fixpoint starts_with (w l : list ascii) : bool :=
  match w, l with
  | [], _ => true
  | c :: w', d :: l' => Ascii.eqb c d && starts_with w' l'
  | _ :: _, [] => false
  end.

(** The character of [cs] that [l] starts with. *)
Definition char_at (cs : list (list ascii)) (l : list ascii) : option (list ascii) :=
  List.find (fun w => starts_with w l) cs.

(** Removing the leading characters that belong to [cs]; [fuel] bounds the
    steps, each of which drops at least one byte. *)
Fixpoint lstrip_seq (cs : list (list ascii)) (fuel : nat) (l : list ascii) : list ascii :=
  match fuel with
  | 0 => l
  | S f =>
      match char_at cs l with
      | Some w => lstrip_seq cs f (skipn (length w) l)
      | None => l
      end
  end.
Definition lstrip_list (cs : list (list ascii)) (l : list ascii) : list ascii :=
  lstrip_seq cs (length l) l.
(** Removing the trailing ones: the same scan on the reversed bytes. *)
Definition rstrip_list (cs : list (list ascii)) (l : list ascii) : list ascii :=
  rev (lstrip_list (map (fun w => rev w) cs) (rev l)).

(** [s.strip()] *)
Definition strip (s : string) : string :=
  of_list (rstrip_list space_chars (lstrip_list space_chars (to_list s))).

(** [s.lower()] on ASCII letters. *)
Definition lower (s : string) : string :=
  of_list (map (fun c => let n := nat_of_ascii c in
                         if (65 <=? n) && (n <=? 90) then ascii_of_nat (n + 32)
                         else c) (to_list s)).

Definition is_alpha (c : ascii) : bool :=
  let n := nat_of_ascii c in ((65 <=? n) && (n <=? 90)) || ((97 <=? n) && (n <=? 122)).

(** [x in xs] for a list of strings. *)
Definition mem (x : string) (xs : list string) : bool := existsb (str_eqb x) xs.

End Py.

(* ------------------------------------------------------------------ *)
(** ** [urllib.parse] *)

Module Url.

Definition uses_relative : list string :=
  [""; "ftp"; "http"; "gopher"; "nntp"; "imap"; "wais"; "file"; "https";
   "shttp"; "mms"; "prospero"; "rtsp"; "rtsps"; "rtspu"; "sftp"; "svn";
   "svn+ssh"; "ws"; "wss"].
Definition uses_netloc : list string :=
  [""; "ftp"; "http"; "gopher"; "nntp"; "telnet"; "imap"; "wais"; "file";
   "mms"; "https"; "shttp"; "snews"; "prospero"; "rtsp"; "rtsps"; "rtspu";
   "rsync"; "svn"; "svn+ssh"; "sftp"; "nfs"; "git"; "git+ssh"; "ws"; "wss";
   "itms-services"].
Definition uses_params : list string :=
  [""; "ftp"; "hdl"; "prospero"; "http"; "imap"; "https"; "shttp"; "rtsp";
   "rtsps"; "rtspu"; "sip"; "sips"; "mms"; "sftp"; "tel"].

Definition scheme_chars : string :=
  "abcdefghijklmnopqrstuvwxyzABCDEFGHIJKLMNOPQRSTUVWXYZ0123456789+-.".

(** [_WHATWG_C0_CONTROL_OR_SPACE] *)
Definition c0_control_or_space (c : ascii) : bool := nat_of_ascii c <=? 32.

(** [_UNSAFE_URL_BYTES_TO_REMOVE = ['\t', '\r', '\n']] *)
Definition remove_unsafe (s : string) : string :=
  Py.of_list (filter (fun c => negb (Ascii.eqb c "009"%char || Ascii.eqb c "013"%char
                                     || Ascii.eqb c "010"%char)) (Py.to_list s)).

(** [SplitResult] and [ParseResult] *)
Record split_result := SplitResult {
  sr_scheme : string; sr_netloc : string; sr_path : string;
  sr_query : string; sr_fragment : string }.
Record parse_result := ParseResult {
  pr_scheme : string; pr_netloc : string; pr_path : string;
  pr_params : string; pr_query : string; pr_fragment : string }.

(** [_splitnetloc(url, start=2)] *)
Definition splitnetloc (url : string) : string * string :=
  let rest := Py.drop 2 url in
  let delims := omap (fun c => Py.find_char c rest) ["/"%char; "?"%char; "#"%char] in
  let delim := foldr Nat.min (String.length rest) delims in
  (Py.take delim rest, Py.drop delim rest).

(** The scheme test of [urlsplit]: [i = url.find(':')], [i > 0],
    [url[0]] an ASCII letter and [url[:i]] made of [scheme_chars]. *)
Definition split_scheme (url : string) : option (string * string) :=
  match Py.find_char ":" url with
  | Some (S _ as i) =>
      let s := Py.take i url in
      match url with
      | String c0 _ =>
          if Py.is_alpha c0 && forallb (fun c => Py.contains_char c scheme_chars)
                                        (Py.to_list s)
          then Some (Py.lower s, Py.drop (S i) url) else None
      | EmptyString => None
      end
  | _ => None
  end.

(** [urlsplit(url, scheme, allow_fragments=True)] *)
Definition urlsplit (url0 scheme0 : string) : result split_result :=
  let url := remove_unsafe (Py.lstrip_by c0_control_or_space url0) in
  let scheme := remove_unsafe (Py.rstrip_by c0_control_or_space
                                 (Py.lstrip_by c0_control_or_space scheme0)) in
  let '(scheme, url) := match split_scheme url with
                        | Some p => p | None => (scheme, url) end in
  let netloc_url :=
    if Py.startswith url "//" then
      let '(netloc, url) := splitnetloc url in
      let lb := Py.contains_char "[" netloc in
      let rb := Py.contains_char "]" netloc in
      if (lb && negb rb) || (rb && negb lb) then Raise ValueError
      else Ok (netloc, url)
    else Ok ("", url) in
  '(netloc, url) ← netloc_url;
  let '(url, fragment) :=
    if Py.contains_char "#" url then Py.split1 "#" url else (url, "") in
  let '(url, query) :=
    if Py.contains_char "?" url then Py.split1 "?" url else (url, "") in
  Ok (SplitResult scheme netloc url query fragment).

(** [_splitparams(url)] *)
Definition splitparams (url : string) : string * string :=
  let i :=
    if Py.contains_char "/" url then
      match Py.rfind_char "/" url with
      | Some j => (fun k => j + k) <$> Py.find_char ";" (Py.drop j url)
      | None => None
      end
    else Py.find_char ";" url in
  match i with
  | Some i => (Py.take i url, Py.drop (S i) url)
  | None => (url, "")
  end.

(** [urlparse(url, scheme)] *)
Definition urlparse (url scheme : string) : result parse_result :=
  sr ← urlsplit url scheme;
  let '(path, params) :=
    if Py.mem (sr_scheme sr) uses_params && Py.contains_char ";" (sr_path sr)
    then splitparams (sr_path sr) else (sr_path sr, "") in
  Ok (ParseResult (sr_scheme sr) (sr_netloc sr) path params
                  (sr_query sr) (sr_fragment sr)).

(** [urlunsplit((scheme, netloc, url, query, fragment))] *)
Definition urlunsplit (scheme netloc url query fragment : string) : string :=
  let url :=
    if negb (Py.is_empty netloc)
       || (negb (Py.is_empty scheme) && Py.mem scheme uses_netloc
           && negb (Py.startswith url "//"))
    then
      let url := if negb (Py.is_empty url) && negb (Py.startswith url "/")
                 then "/" +:+ url else url in
      "//" +:+ netloc +:+ url
    else url in
  let url := if Py.is_empty scheme then url else scheme +:+ ":" +:+ url in
  let url := if Py.is_empty query then url else url +:+ "?" +:+ query in
  if Py.is_empty fragment then url else url +:+ "#" +:+ fragment.

(** [urlunparse((scheme, netloc, url, params, query, fragment))] *)
Definition urlunparse (p : parse_result) : string :=
  let url := if Py.is_empty (pr_params p) then pr_path p
             else pr_path p +:+ ";" +:+ pr_params p in
  urlunsplit (pr_scheme p) (pr_netloc p) url (pr_query p) (pr_fragment p).

(** [segments[1:-1] = filter(None, segments[1:-1])] *)
Definition filter_middle (segs : list string) : list string :=
  match segs with
  | [] => []
  | [s] => [s]
  | s :: rest =>
      s :: filter (fun x => negb (Py.is_empty x)) (removelast rest)
        ++ [default "" (last rest)]
  end.

(** The dot-segment loop of [urljoin]. *)
Definition resolve_segments (segs : list string) : list string :=
  let resolved :=
    foldl (fun acc seg =>
             if Py.str_eqb seg ".." then removelast acc
             else if Py.str_eqb seg "." then acc
             else acc ++ [seg]) [] segs in
  match last segs with
  | Some l => if Py.str_eqb l "." || Py.str_eqb l ".." then resolved ++ [""]
              else resolved
  | None => resolved
  end.

(** [urljoin(base, url)] *)
Definition urljoin (base url : string) : result string :=
  if Py.is_empty base then Ok url else
  if Py.is_empty url then Ok base else
  b ← urlparse base "";
  u ← urlparse url (pr_scheme b);
  let scheme := pr_scheme u in
  if negb (Py.str_eqb scheme (pr_scheme b)) || negb (Py.mem scheme uses_relative)
  then Ok url else
  if Py.mem scheme uses_netloc && negb (Py.is_empty (pr_netloc u))
  then Ok (urlunparse u) else
  let netloc := if Py.mem scheme uses_netloc then pr_netloc b else pr_netloc u in
  let path := pr_path u in
  if Py.is_empty path && Py.is_empty (pr_params u) then
    let query := if Py.is_empty (pr_query u) then pr_query b else pr_query u in
    Ok (urlunparse (ParseResult scheme netloc (pr_path b) (pr_params b)
                                query (pr_fragment u)))
  else
    let base_parts := Py.split "/" (pr_path b) in
    let base_parts :=
      match last base_parts with
      | Some l => if Py.is_empty l then base_parts else removelast base_parts
      | None => base_parts
      end in
    let segments :=
      if Py.startswith path "/" then Py.split "/" path
      else filter_middle (base_parts ++ Py.split "/" path) in
    let joined := Py.join "/" (resolve_segments segments) in
    let rpath := if Py.is_empty joined then "/" else joined in
    Ok (urlunparse (ParseResult scheme netloc rpath (pr_params u)
                                (pr_query u) (pr_fragment u))).

End Url.


(* ------------------------------------------------------------------ *)
(** ** The BeautifulSoup tree *)

Module Soup.


(** A parsed document: strings and tags with their attributes (one value
    per name, as the tree builder leaves them) and children.  The
    [BeautifulSoup] object itself is the tag ["[document]"]. *)
Inductive node :=
| Text (s : string)
| Elem (tag : string) (attrs : list (string * string)) (children : list node).

(** [tag.descendants], in document order. *)
Fixpoint descendants (n : node) : list node :=
  match n with
  | Text _ => []
  | Elem _ _ cs =>
      (fix go (cs : list node) : list node :=
         match cs with
         | [] => []
         | c :: r => c :: descendants c ++ go r
         end) cs
  end.

Definition is_tag_in (names : list string) (n : node) : bool :=
  match n with Elem t _ _ => Py.mem t names | Text _ => false end.

(** [tag.find_all(names)] *)
Definition find_all (names : list string) (n : node) : list node :=
  filter (fun d => is_tag_in names d) (descendants n).

(** [tag.get(key)] *)
Definition get (n : node) (key : string) : option string :=
  match n with
  | Elem _ attrs _ => snd <$> List.find (fun kv => Py.str_eqb (fst kv) key) attrs
  | Text _ => None
  end.

(** [tag.get(key, dflt)] *)
Definition get_or (n : node) (key dflt : string) : string := default dflt (get n key).

(** [tag.has_attr(key)] *)
Definition has_attr (n : node) (key : string) : bool :=
  match get n key with Some _ => true | None => false end.

(** [tag.name] *)
Definition name (n : node) : string :=
  match n with Elem t _ _ => t | Text _ => "" end.

(** [tag.get_text()]: the concatenated strings below the tag. *)
Fixpoint get_text (n : node) : string :=
  match n with
  | Text s => s
  | Elem _ _ cs =>
      (fix go (cs : list node) : string :=
         match cs with
         | [] => ""
         | c :: r => get_text c +:+ go r
         end) cs
  end.

(** [tag.string]: the only string below a chain of single children,
    [None] as soon as a tag has zero or several children. *)
Fixpoint string_of (n : node) : option string :=
  match n with
  | Text s => Some s
  | Elem _ _ [c] => string_of c
  | Elem _ _ _ => None
  end.

(** [tag.find(name)] and [soup.title] *)
Definition find (nm : string) (n : node) : option node := head (find_all [nm] n).

End Soup.

(* ------------------------------------------------------------------ *)
(** ** The structured document ([dom_data]) *)

Record link := Link { link_text : string; link_url : string; is_external : bool }.
Record image := Image { img_src : string; img_alt : string; img_title : string }.
Record html_list := HtmlList { list_type : string; list_items : list string }.
Record form_input := FormInput {
  input_type : string; input_name : string; input_placeholder : string;
  input_required : bool }.
Record form := Form {
  form_action : string; form_method : string; form_inputs : list form_input }.
Record contact_info := ContactInfo {
  emails : list string; phones : list string; addresses : list string }.
Record headings := Headings { h1 : list string; h2 : list string; h3 : list string }.

Record dom_data := DomData {
  title : string;
  meta_description : string;
  dom_headings : headings;
  links : list link;
  images : list image;
  paragraphs : list string;
  lists : list html_list;
  tables : list (list (list string));
  forms : list form;
  dom_contact_info : contact_info }.

(** The library functions the extractor and the chunker call. *)
Record lib := Lib {
  (** [BeautifulSoup(markup, 'html.parser')] raises [ParserRejectedMarkup]
      with message [msg] when the parser rejects the markup ([Some msg]);
      [html.parser] does so, up to Python 3.12, for a declaration such as
      [<![UNKNOWN[]]>]. *)
  parse_rejected : string -> option string;
  (** the tree it builds from markup it accepts *)
  html_parse : string -> Soup.node;
  (** [re.findall(pattern, text)] *)
  re_findall : string -> string -> list string }.

(** The failure marker that starts every error string: U+274C, whose
    UTF-8 bytes are E2 9D 8C. *)
Definition error_marker : string :=
  String (ascii_of_nat 226) (String (ascii_of_nat 157) (String (ascii_of_nat 140) "")).

Definition email_pattern : string :=
  "\b[A-Za-z0-9._%+-]+@[A-Za-z0-9.-]+\.[A-Z|a-z]{2,}\b".
Definition phone_patterns : list string :=
  ["\b\d{3}[-.]?\d{3}[-.]?\d{4}\b";
   "\b\(\d{3}\)\s?\d{3}[-.]?\d{4}\b";
   "\b\+\d{1,3}[-.\s]?\d{1,14}\b"].

(** [list(set(xs))]: the distinct values, in the set's iteration order. *)
Definition list_of_set (xs : list string) : list string :=
  elements (list_to_set xs : gset string).

(* ------------------------------------------------------------------ *)
(** ** [parse_dom_content] *)

Section Extract.

Variable L : lib.

(** ['title': soup.title.string.strip() if soup.title else 'No title found'];
    [.strip()] on [None] raises [AttributeError]. *)
Definition extract_title (soup : Soup.node) : result string :=
  match Soup.find "title" soup with
  | None => Ok "No title found"
  | Some t =>
      match Soup.string_of t with
      | Some s => Ok (Py.strip s)
      | None => Raise AttributeError
      end
  end.

(** [[h.get_text().strip() for h in soup.find_all(tag)]] *)
Definition texts_of (tag : string) (soup : Soup.node) : list string :=
  map (fun h => Py.strip (Soup.get_text h)) (Soup.find_all [tag] soup).

(** [[p.get_text().strip() for p in soup.find_all('p') if p.get_text().strip()]] *)
Definition extract_paragraphs (soup : Soup.node) : list string :=
  filter (fun s => negb (Py.is_empty s)) (texts_of "p" soup).

(** [soup.find('meta', attrs={'name': 'description'})] then
    [meta_desc.get('content', '')]. *)
Definition extract_meta_description (soup : Soup.node) : string :=
  match List.find (fun m => match Soup.get m "name" with
                            | Some v => Py.str_eqb v "description"
                            | None => false end)
                  (Soup.find_all ["meta"] soup) with
  | Some m => Soup.get_or m "content" ""
  | None => ""
  end.

(** One iteration of [for link in soup.find_all('a', href=True)]. *)
Definition extract_link (base_url : string) (a : Soup.node) : result (option link) :=
  let link_text := Py.strip (Soup.get_text a) in
  link_url ← Url.urljoin base_url (Soup.get_or a "href" "");
  if Py.is_empty link_text then Ok None else
  lp ← Url.urlparse link_url "";
  bp ← Url.urlparse base_url "";
  Ok (Some (Link link_text link_url
               (negb (Py.str_eqb (Url.pr_netloc lp) (Url.pr_netloc bp))))).

Definition extract_links (base_url : string) (soup : Soup.node) : result (list link) :=
  match mapM (extract_link base_url)
             (filter (fun a => Soup.has_attr a "href") (Soup.find_all ["a"] soup)) with
  | Ok ls => Ok (omap id ls)
  | Raise e => Raise e
  end.

(** One iteration of [for img in soup.find_all('img')]. *)
Definition extract_image (base_url : string) (img : Soup.node) : result (option image) :=
  let img_src := Soup.get_or img "src" "" in
  if Py.is_empty img_src then Ok None else
  src ← Url.urljoin base_url img_src;
  Ok (Some (Image src (Soup.get_or img "alt" "") (Soup.get_or img "title" ""))).

Definition extract_images (base_url : string) (soup : Soup.node) : result (list image) :=
  match mapM (extract_image base_url) (Soup.find_all ["img"] soup) with
  | Ok is => Ok (omap id is)
  | Raise e => Raise e
  end.

(** [for ul in soup.find_all(['ul', 'ol'])] *)
Definition extract_lists (soup : Soup.node) : list html_list :=
  omap (fun ul =>
          let list_items := map (fun li => Py.strip (Soup.get_text li))
                                (Soup.find_all ["li"] ul) in
          match list_items with
          | [] => None
          | _ => Some (HtmlList (Soup.name ul) list_items)
          end) (Soup.find_all ["ul"; "ol"] soup).

(** [for table in soup.find_all('table')]: the rows of a table. *)
Definition table_rows (table : Soup.node) : list (list string) :=
  omap (fun row =>
          let row_data := map (fun cell => Py.strip (Soup.get_text cell))
                              (Soup.find_all ["td"; "th"] row) in
          match row_data with [] => None | _ => Some row_data end)
       (Soup.find_all ["tr"] table).

Definition extract_tables (soup : Soup.node) : list (list (list string)) :=
  omap (fun table =>
          match table_rows table with [] => None | td => Some td end)
       (Soup.find_all ["table"] soup).

(** [for form in soup.find_all('form')] *)
Definition extract_input (f : Soup.node) : form_input :=
  FormInput (Soup.get_or f "type" (Soup.name f)) (Soup.get_or f "name" "")
            (Soup.get_or f "placeholder" "") (Soup.has_attr f "required").

Definition extract_forms (soup : Soup.node) : list form :=
  map (fun f => Form (Soup.get_or f "action" "") (Soup.get_or f "method" "get")
                     (map extract_input (Soup.find_all ["input"; "textarea"; "select"] f)))
      (Soup.find_all ["form"] soup).

(** The contact patterns over [soup.get_text()], each set deduplicated. *)
Definition extract_contact_info (soup : Soup.node) : contact_info :=
  let text_content := Soup.get_text soup in
  ContactInfo
    (list_of_set (re_findall L email_pattern text_content))
    (list_of_set (mjoin (map (fun p => re_findall L p text_content) phone_patterns)))
    [].

(** The body of the [try] block. *)
Definition parse_dom_body (soup : Soup.node) (base_url : string) : result dom_data :=
  title ← extract_title soup;
  links ← extract_links base_url soup;
  images ← extract_images base_url soup;
  Ok (DomData title (extract_meta_description soup)
        (Headings (texts_of "h1" soup) (texts_of "h2" soup) (texts_of "h3" soup))
        links images (extract_paragraphs soup) (extract_lists soup)
        (extract_tables soup) (extract_forms soup) (extract_contact_info soup)).

(** [parse_dom_content(html_content, base_url)]: [None] for empty input,
    for an error string, and for any exception caught by [except]. *)
Definition parse_dom_content (html_content base_url : string) : option dom_data :=
  if Py.is_empty html_content || Py.startswith html_content error_marker then None
  else match parse_rejected L html_content with
       | Some _ => None
       | None =>
           match parse_dom_body (html_parse L html_content) base_url with
           | Ok d => Some d
           | Raise _ => None
           end
       end.

End Extract.

(* ------------------------------------------------------------------ *)
(** ** [create_content_chunks] and LangChain's
    [RecursiveCharacterTextSplitter] (keep_separator=True,
    strip_whitespace=True, length_function=len) *)

Module Chunk.

(** [s.split(sep)] for a non-empty separator. *)
Fixpoint split_str_aux (sep : list ascii) (fuel : nat) (l cur : list ascii)
  : list string :=
  match fuel with
  | 0 => [Py.of_list (rev cur ++ l)]
  | S f =>
      match l with
      | [] => [Py.of_list (rev cur)]
      | c :: r =>
          if bool_decide (sep `prefix_of` l) then
            Py.of_list (rev cur) :: split_str_aux sep f (drop (length sep) l) []
          else split_str_aux sep f r (c :: cur)
      end
  end.
Definition split_str (sep s : string) : list string :=
  split_str_aux (Py.to_list sep) (String.length s) (Py.to_list s) [].

(** [sep in text] *)
Definition contains (sep text : string) : bool :=
  match String.index 0 sep text with Some _ => true | None => false end.

(** [_split_text_with_regex(text, re.escape(sep), keep_separator=True)] *)
Definition split_with_separator (text sep : string) : list string :=
  let splits :=
    if Py.is_empty sep then Py.chars text
    else match split_str sep text with
         | [] => []
         | p0 :: ps => p0 :: map (fun p => sep +:+ p) ps
         end in
  filter (fun s => negb (Py.is_empty s)) splits.

(** The separator search of [_split_text]. *)
Fixpoint choose_separator (all : list string) (seps : list string) (text : string)
  : string * list string :=
  match seps with
  | [] => (default "" (last all), [])
  | s :: rest =>
      if Py.is_empty s then (s, [])
      else if contains s text then (s, rest)
      else choose_separator all rest text
  end.

Section Splitter.

Variables chunk_size chunk_overlap : nat.

(** [_join_docs(docs, separator)] *)
Definition join_docs (docs : list string) (separator : string) : option string :=
  let text := Py.strip (Py.join separator docs) in
  if Py.is_empty text then None else Some text.

(** The [while] loop of [_merge_splits] that drops leading splits. *)
Fixpoint shrink (sep_len len : nat) (current : list string) (total : nat)
  : list string * nat :=
  match current with
  | [] => (current, total)
  | d :: rest =>
      if (chunk_overlap <? total)
         || ((chunk_size <? total + len + (if bool_decide (current = []) then 0 else sep_len))
             && (0 <? total))
      then shrink sep_len len rest
             (total - (Py.len d + (if bool_decide (1 < length current) then sep_len else 0)))
      else (current, total)
  end.

(** [_merge_splits(splits, separator)] *)
Definition merge_splits (splits : list string) (separator : string) : list string :=
  let sep_len := Py.len separator in
  let '(docs, current, total) :=
    foldl (fun '(docs, current, total) d =>
             let len := Py.len d in
             let '(docs, current, total) :=
               if chunk_size <? total + len + (if bool_decide (current = []) then 0 else sep_len)
               then
                 match current with
                 | [] => (docs, current, total)
                 | _ =>
                     let docs := match join_docs current separator with
                                 | Some doc => docs ++ [doc] | None => docs end in
                     let '(current, total) := shrink sep_len len current total in
                     (docs, current, total)
                 end
               else (docs, current, total) in
             let current := current ++ [d] in
             (docs, current,
              total + len + (if bool_decide (1 < length current) then sep_len else 0)))
          ([], [], 0) splits in
  match join_docs current separator with
  | Some doc => docs ++ [doc]
  | None => docs
  end.

(** [_split_text(text, separators)]; [fuel] bounds the recursion, which
    always passes a strict suffix of the separators. *)
Fixpoint split_text_rec (fuel : nat) (separators : list string) (text : string)
  : list string :=
  match fuel with
  | 0 => []
  | S f =>
      let '(separator, new_separators) := choose_separator separators separators text in
      let splits := split_with_separator text separator in
      let '(final, good) :=
        foldl (fun '(final, good) s =>
                 if Py.len s <? chunk_size then (final, good ++ [s])
                 else
                   let final := match good with
                                | [] => final
                                | _ => final ++ merge_splits good ""
                                end in
                   match new_separators with
                   | [] => (final ++ [s], [])
                   | _ => (final ++ split_text_rec f new_separators s, [])
                   end)
              ([], []) splits in
      match good with
      | [] => final
      | _ => final ++ merge_splits good ""
      end
  end.

End Splitter.

Definition separators : list string :=
  [String "010" (String "010" ""); String "010" ""; ". "; "! "; "? "; " "; ""].

(** [RecursiveCharacterTextSplitter(chunk_size=..., chunk_overlap=...)]
    followed by [split_text(text)]; the constructor raises [ValueError]
    on a non-positive size or an overlap larger than the size. *)
Definition split_text (chunk_size chunk_overlap : nat) (text : string)
  : result (list string) :=
  if chunk_size =? 0 then Raise ValueError
  else if chunk_size <? chunk_overlap then Raise ValueError
  else Ok (split_text_rec chunk_size chunk_overlap (S (length separators))
                          separators text).

End Chunk.

(** The [content] argument of [create_content_chunks]: a bundle returned
    by [scrape_website] (a dict with a ['dom_data'] key), a string, or any
    other value, given by its [str()]. *)
Inductive content :=
| CBundle (html : string) (dom : option dom_data) (url : string)
| CStr (s : string)
| COther (repr : string).

(** [re.sub(r'\s+', ' ', text)]: each run of whitespace characters
    becomes one space; [in_ws] tells whether the run has started, and
    [fuel] bounds the steps. *)
Fixpoint collapse_ws_aux (fuel : nat) (l : list ascii) (in_ws : bool) : list ascii :=
  match l with
  | [] => []
  | c :: r =>
      match fuel with
      | 0 => l
      | S f =>
          match Py.char_at Py.space_chars l with
          | Some w =>
              let rest := collapse_ws_aux f (drop (length w) l) true in
              if in_ws then rest else " "%char :: rest
          | None => c :: collapse_ws_aux f r false
          end
      end
  end.
Definition collapse_ws (s : string) : string :=
  Py.of_list (collapse_ws_aux (length (Py.to_list s)) (Py.to_list s) false).

(** [for script in soup(["script", "style"]): script.decompose()] *)
Fixpoint decompose (names : list string) (n : Soup.node) : Soup.node :=
  match n with
  | Soup.Text s => Soup.Text s
  | Soup.Elem t a cs =>
      Soup.Elem t a
        ((fix go (cs : list Soup.node) : list Soup.node :=
            match cs with
            | [] => []
            | c :: r => if Soup.is_tag_in names c then go r
                        else decompose names c :: go r
            end) cs)
  end.

(** The text parts of a structured bundle, joined by newlines;
    [dom_data['title']] on [None] raises [TypeError]. *)
Definition dom_text (dom : option dom_data) : result string :=
  match dom with
  | None => Raise TypeError
  | Some d =>
      let hs := dom_headings d in
      let text_parts :=
        (if Py.is_empty (title d) then [] else ["Title: " +:+ title d])
        ++ (if Py.is_empty (meta_description d) then []
            else ["Description: " +:+ meta_description d])
        ++ map (fun h => "H1: " +:+ h) (h1 hs)
        ++ map (fun h => "H2: " +:+ h) (h2 hs)
        ++ map (fun h => "H3: " +:+ h) (h3 hs)
        ++ paragraphs d
        ++ mjoin (map list_items (lists d)) in
      Ok (Py.join (String "010" "") text_parts)
  end.

(** [create_content_chunks(content, chunk_size, chunk_overlap)] *)
Definition create_content_chunks (L : lib) (c : content)
    (chunk_size chunk_overlap : nat) : result (list string) :=
  content_text ←
    match c with
    | CBundle _ dom _ => dom_text dom
    | CStr s =>
        match parse_rejected L s with
        | Some _ => Raise ParserRejectedMarkup
        | None => Ok (Soup.get_text (decompose ["script"; "style"] (html_parse L s)))
        end
    | COther r => Ok r
    end;
  let content_text := Py.strip (collapse_ws content_text) in
  Chunk.split_text chunk_size chunk_overlap content_text.


(* ------------------------------------------------------------------ *)
(** ** The fetch strategies and [scrape_website] *)

(** What a call of [requests.get] returns when it does not raise. *)
Record http_response := HttpResponse { status_code : nat; response_text : string }.

(** The outside world: the HTTP transport and the browser session
    ([driver.get] then [driver.page_source]); either may raise. *)
Record world := World {
  http_get : string -> result http_response;
  browser_get : string -> result string }.

Inductive strategy := Requests | Selenium.

(** The calls made to the outside world, in order. *)
Definition trace := list (strategy * string).

(** [scrape_with_requests(website)]: [response.raise_for_status()] raises
    for 4xx and 5xx; every exception becomes [None]. *)
Definition scrape_with_requests (W : world) (website : string) : option string :=
  match http_get W website with
  | Ok r => if (400 <=? status_code r) && (status_code r <? 600) then None
            else Some (response_text r)
  | Raise _ => None
  end.

(** [scrape_with_selenium(website)] *)
Definition scrape_with_selenium (W : world) (website : string) : option string :=
  match browser_get W website with
  | Ok html => Some html
  | Raise _ => None
  end.

(** Python truthiness of [str | None]. *)
Definition truthy (h : option string) : bool :=
  match h with Some s => negb (Py.is_empty s) | None => false end.

(** What [scrape_website] returns: a string (markup or error message) or
    the dict [{'html': ..., 'dom_data': ..., 'url': ...}]. *)
Inductive scrape_result :=
| RStr (s : string)
| RBundle (html : string) (dom : option dom_data) (url : string).

Definition invalid_url_message : string :=
  error_marker +:+ " Please provide a valid URL".
Definition all_failed_message : string :=
  error_marker +:+ " All scraping methods failed. The website might be blocking requests or requires special handling.".

(** [website.startswith(('http://', 'https://'))] check and prefixing. *)
Definition normalize_url (website : string) : string :=
  if Py.startswith website "http://" || Py.startswith website "https://"
  then website else "https://" +:+ website.

(** [scrape_website(website, parse_dom)], with the strategy calls it makes. *)
Definition scrape_website (L : lib) (W : world) (website : string) (parse_dom : bool)
  : scrape_result * trace :=
  if Py.is_empty website then (RStr invalid_url_message, [])
  else
    let website := normalize_url website in
    let html := scrape_with_requests W website in
    let tr : trace := [(Requests, website)] in
    let '(html, tr) :=
      if truthy html then (html, tr)
      else (scrape_with_selenium W website, tr ++ [(Selenium, website)]) in
    match html with
    | Some h =>
        if Py.is_empty h then (RStr all_failed_message, tr)
        else if parse_dom then (RBundle h (parse_dom_content L h website) website, tr)
        else (RStr h, tr)
    | None => (RStr all_failed_message, tr)
    end.

(** The callers' test [isinstance(result, str) and result.startswith("❌")]. *)
Definition is_failure (r : scrape_result) : bool :=
  match r with
  | RStr s => Py.startswith s error_marker
  | RBundle _ _ _ => false
  end.

(* ------------------------------------------------------------------ *)
(** ** Notions the specification speaks of *)

(** A URL "has a scheme" (RFC 3986, section 3.1) when it starts with
    [ALPHA *( ALPHA / DIGIT / "+" / "-" / "." ) ":"]; an absolute URL is one
    that has a scheme. *)
Definition has_scheme (u : string) : bool :=
  match Py.find_char ":" u with
  | Some (S _ as i) =>
      match u with
      | String c0 _ =>
          Py.is_alpha c0 && forallb (fun c => Py.contains_char c Url.scheme_chars)
                                    (Py.to_list (Py.take i u))
      | EmptyString => false
      end
  | _ => false
  end.

(** The host of a URL, as [urlparse(u).hostname] computes it: the netloc
    without user information and port, in lower case. *)
Definition host_of_netloc (netloc : string) : string :=
  let hostinfo := match Py.rfind_char "@" netloc with
                  | Some i => Py.drop (S i) netloc | None => netloc end in
  let host := if Py.startswith hostinfo "["
              then fst (Py.split1 "]" (Py.drop 1 hostinfo))
              else fst (Py.split1 ":" hostinfo) in
  Py.lower host.

Definition url_host (u : string) : result string :=
  sr ← Url.urlsplit u ""; Ok (host_of_netloc (Url.sr_netloc sr)).

(** Python values built from strings and lists, compared with [==]. *)
Inductive pyval :=
| PyStr (s : string)
| PyList (l : list pyval).

Definition tables_to_py (t : list (list (list string))) : pyval :=
  PyList (map (fun tb => PyList (map (fun r => PyList (map PyStr r)) tb)) t).

(** The tables extraction as the specification words it: every table,
    each row the texts of its cells, rows without cells and tables without
    rows left out. *)
Definition cell_text (cell : Soup.node) : string := Py.strip (Soup.get_text cell).
Definition spec_tables (soup : Soup.node) : list (list (list string)) :=
  filter (fun t => t <> [])
    (map (fun table =>
            filter (fun r => r <> [])
              (map (fun row => map cell_text (Soup.find_all ["td"; "th"] row))
                   (Soup.find_all ["tr"] table)))
         (Soup.find_all ["table"] soup)).

(** A [lib] whose parser yields the given tree: the library at runs on
    one markup string whose [html.parser] tree is [t], and where the
    contact patterns find the matches [m]. *)
Definition lib_of (t : Soup.node) (m : list string) : lib :=
  Lib (fun _ => None) (fun _ => t) (fun _ _ => m).

(** A world without network: every request and browser session raises. *)
Definition offline_world : world :=
  World (fun _ => Raise ConnectionError) (fun _ => Raise WebDriverException).

(** A server answering [204 No Content] with an empty body, and a browser
    that renders a short page. *)
Definition no_content_world : world :=
  World (fun _ => Ok (HttpResponse 204 "")) (fun _ => Ok "<p>x</p>").

(** The empty [BeautifulSoup] document. *)
Definition empty_soup : Soup.node := Soup.Elem "[document]" [] [].

(** The library where the parser is not reached (no [parse_dom]). *)
Definition empty_lib : lib := lib_of empty_soup [].

(** A [lib] whose parser rejects every markup. *)
Definition rejecting_lib : lib :=
  Lib (fun _ => Some "expected name token") (fun _ => empty_soup) (fun _ _ => []).

(** A server answering [503] and a browser that renders a short page. *)
Definition fallback_world : world :=
  World (fun _ => Ok (HttpResponse 503 "busy")) (fun _ => Ok "<p>x</p>").

(** [<table><tr><td>A</td><td>B</td></tr></table>] and its tree. *)
Definition table_markup : string := "<table><tr><td>A</td><td>B</td></tr></table>".
Definition table_tree : Soup.node :=
  Soup.Elem "[document]" []
    [Soup.Elem "table" []
       [Soup.Elem "tr" [] [Soup.Elem "td" [] [Soup.Text "A"];
                           Soup.Elem "td" [] [Soup.Text "B"]]]].

(** [<form action='/submit'><input name='q'></form>] and its tree. *)
Definition form_markup : string := "<form action='/submit'><input name='q'></form>".
Definition form_tree : Soup.node :=
  Soup.Elem "[document]" []
    [Soup.Elem "form" [("action", "/submit")]
       [Soup.Elem "input" [("name", "q")] []]].

(** [<a href='https://example.com:8080/a'>t</a>] and its tree. *)
Definition port_link_markup : string := "<a href='https://example.com:8080/a'>t</a>".
Definition port_link_tree : Soup.node :=
  Soup.Elem "[document]" []
    [Soup.Elem "a" [("href", "https://example.com:8080/a")] [Soup.Text "t"]].

(** [<a href='/a'>Home</a><a href='/b'>&nbsp;</a><a name='top'>Top</a>]:
    an anchor with text, one whose only text is a no-break space, one
    without [href]; and its tree. *)
Definition anchors_markup : string :=
  "<a href='/a'>Home</a><a href='/b'>&nbsp;</a><a name='top'>Top</a>".
Definition anchors_tree : Soup.node :=
  Soup.Elem "[document]" []
    [Soup.Elem "a" [("href", "/a")] [Soup.Text "Home"];
     Soup.Elem "a" [("href", "/b")] [Soup.Text (String "194" (String "160" ""))];
     Soup.Elem "a" [("name", "top")] [Soup.Text "Top"]].

(** [<img src='a.png' alt='A'><img alt='none'><img src='b.png' title='B'>]
    and its tree. *)
Definition gallery_markup : string :=
  "<img src='a.png' alt='A'><img alt='none'><img src='b.png' title='B'>".
Definition gallery_tree : Soup.node :=
  Soup.Elem "[document]" []
    [Soup.Elem "img" [("src", "a.png"); ("alt", "A")] [];
     Soup.Elem "img" [("alt", "none")] [];
     Soup.Elem "img" [("src", "b.png"); ("title", "B")] []].

(** [<p>x</p><a href='http://[x'>t</a>]: a link whose URL has an
    unbalanced IPv6 bracket, and its tree. *)
Definition bad_link_markup : string := "<p>x</p><a href='http://[x'>t</a>".
Definition bad_link_tree : Soup.node :=
  Soup.Elem "[document]" []
    [Soup.Elem "p" [] [Soup.Text "x"];
     Soup.Elem "a" [("href", "http://[x")] [Soup.Text "t"]].

(* ------------------------------------------------------------------ *)
(** ** [analyze_content_with_llm] *)

Definition nl : string := String "010" "".

(** The local model server: constructing [OllamaLLM(model=name)] may
    raise (the message [str(e)] is returned), and [llm.invoke(prompt)]
    returns the response or raises with a message. *)
Record ollama := Ollama {
  ollama_init : string -> option string;
  ollama_invoke : string -> string -> string + string }.

(** One entry of the result list: the per-chunk dict, or the single
    [{'error': ...}] dict. *)
Inductive analysis_entry :=
| Entry (chunk_id : nat) (chunk_preview : string) (analysis : string) (chunk_length : nat)
| ErrorEntry (error : string).

Definition prompts : list (string * string) :=
  [("summarize", "Summarize the following content in 2-3 sentences, focusing on the main points:");
   ("extract_key_info", "Extract the most important information, key facts, and main topics from this content:");
   ("analyze_sentiment", "Analyze the sentiment and tone of this content. Is it positive, negative, or neutral? Explain:");
   ("find_contacts", "Find any contact information, company names, or important details from this content:");
   ("extract_topics", "What are the main topics and themes discussed in this content? List them:");
   ("generate_questions", "Generate 3-5 relevant questions that this content answers:");
   ("critique", "Provide a brief critique or analysis of this content - what's good, what could be improved:");
   ("keywords", "Extract the main keywords and important terms from this content:")].

(** [prompts.get(key)] *)
Definition prompt_lookup (key : string) : option string :=
  snd <$> List.find (fun kv => Py.str_eqb (fst kv) key) prompts.

(** [prompts.get(analysis_type, prompts["summarize"])] *)
Definition prompt_template (analysis_type : string) : string :=
  default (default "" (prompt_lookup "summarize")) (prompt_lookup analysis_type).

(** [chunk[:200] + "..." if len(chunk) > 200 else chunk] *)
Definition chunk_preview_of (chunk : string) : string :=
  if 200 <? Py.len chunk then Py.slice_to 200 chunk +:+ "..." else chunk.

(** [f"{prompt_template}\n\n{chunk}\n\nAnalysis:"] *)
Definition full_prompt (template chunk : string) : string :=
  template +:+ nl +:+ nl +:+ chunk +:+ nl +:+ nl +:+ "Analysis:".

(** One iteration of the loop, with its own [try]/[except]. *)
Definition analyze_chunk (O : ollama) (model_name template : string) (i : nat)
    (chunk : string) : analysis_entry :=
  match ollama_invoke O model_name (full_prompt template chunk) with
  | inl response =>
      Entry (i + 1) (chunk_preview_of chunk) (Py.strip response) (Py.len chunk)
  | inr msg =>
      Entry (i + 1) (chunk_preview_of chunk) ("Error processing this chunk: " +:+ msg)
            (Py.len chunk)
  end.

(** [analyze_content_with_llm(chunks, analysis_type, model_name)] *)
Definition analyze_content_with_llm (O : ollama) (chunks : list string)
    (analysis_type model_name : string) : list analysis_entry :=
  match ollama_init O model_name with
  | Some msg => [ErrorEntry ("LLM analysis failed: " +:+ msg)]
  | None => imap (analyze_chunk O model_name (prompt_template analysis_type)) chunks
  end.

(* ------------------------------------------------------------------ *)
(** ** Text cleaning ([parse.clean_dom_content], [main.clean_html_content]) *)

(** The line boundaries of [str.splitlines] as UTF-8 byte sequences,
    \r\n (one boundary) first: \n, \r, \x0b, \x0c, \x1c, \x1d, \x1e,
    U+0085, U+2028 and U+2029. *)
Definition line_breaks : list (list ascii) :=
  map Py.bytes [[13; 10]; [10]; [13]; [11]; [12]; [28]; [29]; [30]; [194; 133];
                [226; 128; 168]; [226; 128; 169]].

(** [s.splitlines()]: a final line break does not start an empty line;
    [cur] is the current line, reversed, and [fuel] bounds the steps. *)
Fixpoint splitlines_aux (fuel : nat) (l : list ascii) (cur : list ascii) : list string :=
  match l with
  | [] => match cur with [] => [] | _ => [Py.of_list (rev cur)] end
  | c :: r =>
      match fuel with
      | 0 => [Py.of_list (rev cur ++ l)]
      | S f =>
          match Py.char_at line_breaks l with
          | Some w => Py.of_list (rev cur) :: splitlines_aux f (drop (length w) l) []
          | None => splitlines_aux f r (c :: cur)
          end
      end
  end.
Definition splitlines (s : string) : list string :=
  splitlines_aux (length (Py.to_list s)) (Py.to_list s) [].

(** [' '.join(chunk for chunk in (phrase.strip() for line in (line.strip()
    for line in text.splitlines()) for phrase in line.split("  ")) if chunk)] *)
Definition clean_text (text : string) : string :=
  let lines := map Py.strip (splitlines text) in
  let chunks := map Py.strip (mjoin (map (Chunk.split_str "  ") lines)) in
  Py.join " " (filter (fun c => negb (Py.is_empty c)) chunks).

(** [parse.clean_dom_content(html_content)]: the [for tag_type in
    unwanted_tags] loop removes the same subtrees as one pass over the
    six names; the [except] returns [str(html_content)[:5000]]. *)
Definition clean_dom_content (L : lib) (html_content : string) : string :=
  if Py.is_empty html_content then ""
  else match parse_rejected L html_content with
       | Some _ => Py.slice_to 5000 html_content
       | None =>
           clean_text (Soup.get_text
             (decompose ["script"; "style"; "noscript"; "header"; "footer"; "nav"]
                        (html_parse L html_content)))
       end.

(** [main.clean_html_content(html_content)] *)
Definition clean_html_content (L : lib) (html_content : string) : string :=
  if Py.is_empty html_content || Py.startswith html_content error_marker then html_content
  else match parse_rejected L html_content with
       | Some msg =>
           "Content extracted but couldn't clean it: " +:+ msg +:+ nl +:+ nl
           +:+ "Raw content: " +:+ Py.slice_to 1000 html_content +:+ "..."
       | None =>
           clean_text (Soup.get_text (decompose ["script"; "style"] (html_parse L html_content)))
       end.

(* ------------------------------------------------------------------ *)
(** ** [parse.parse_with_llm] and [parse.get_parsing_suggestions] *)

Definition truncation_note : string :=
  nl +:+ nl +:+ "[Note: Content was truncated due to length]".

(** The content handed to the model: at most 8000 characters, then the note. *)
Definition truncate_content (cleaned : string) : string :=
  if 8000 <? Py.len cleaned then Py.slice_to 8000 cleaned +:+ truncation_note
  else cleaned.

(** [(prompt | model).invoke({"dom_content": ..., "parse_description": ...})]:
    the response or an exception message. *)
Definition chain := string -> string -> string + string.

(** [parse_with_llm(dom_content, parse_description)] *)
Definition parse_with_llm (L : lib) (invoke : chain) (dom_content parse_description : string)
  : string :=
  let cleaned_content := truncate_content (clean_dom_content L dom_content) in
  match invoke cleaned_content parse_description with
  | inl response =>
      let result := Py.strip response in
      if Py.is_empty result then "No matching information found." else result
  | inr msg => "Error during parsing: " +:+ msg
  end.

(** [re.search(pattern, text[, re.IGNORECASE]) is not None] *)
Definition searcher := string -> string -> bool -> bool.

Definition price_patterns : list string := ["\$\d+"; "\d+\s*USD"; "Price:"; "Cost:"].
Definition date_patterns : list string :=
  ["\b\d{1,2}[/-]\d{1,2}[/-]\d{2,4}\b"; "\b\w+\s+\d{1,2},?\s+\d{4}\b"].

(** The seven structural suggestions, with the tags whose presence adds them. *)
Definition structural_checks (soup : Soup.node) : list (bool * string) :=
  [(bool_decide (Soup.find_all ["h1"] soup <> []), "Main headings and titles");
   (bool_decide (Soup.find_all ["p"] soup <> []), "All paragraph text content");
   (bool_decide (filter (fun a => Soup.has_attr a "href") (Soup.find_all ["a"] soup) <> []),
      "All links and URLs");
   (bool_decide (Soup.find_all ["img"] soup <> []), "Image sources and alt text");
   (bool_decide (Soup.find_all ["ul"; "ol"] soup <> []), "List items and bullet points");
   (bool_decide (Soup.find_all ["table"] soup <> []), "Table data and structured information");
   (bool_decide (Soup.find_all ["form"] soup <> []), "Form fields and input elements")].

(** The generic suggestions of the [except] branch. *)
Definition fallback_suggestions : list string :=
  ["Main headings and titles"; "All links and URLs"; "Contact information";
   "Product names and descriptions"; "Prices and costs";
   "Email addresses and phone numbers"].

(** [get_parsing_suggestions(dom_content)] *)
Definition get_parsing_suggestions (L : lib) (re_search : searcher) (dom_content : string)
  : list string :=
  match parse_rejected L dom_content with
  | Some _ => fallback_suggestions
  | None =>
  let soup := html_parse L dom_content in
  let text_content := Soup.get_text soup in
  let checks :=
    structural_checks soup ++
    [(re_search email_pattern text_content false, "Email addresses");
     (re_search "\b\d{3}[-.]?\d{3}[-.]?\d{4}\b" text_content false, "Phone numbers");
     (existsb (fun p => re_search p text_content true) price_patterns,
        "Prices and pricing information");
     (existsb (fun p => re_search p text_content false) date_patterns,
        "Dates and timestamps")] in
  take 8 (omap (fun c : bool * string => if c.1 then Some c.2 else None) checks)
  end.

(** Every suggestion the analysis can make, in the order it checks for them. *)
Definition suggestion_labels : list string :=
  ["Main headings and titles"; "All paragraph text content"; "All links and URLs";
   "Image sources and alt text"; "List items and bullet points";
   "Table data and structured information"; "Form fields and input elements";
   "Email addresses"; "Phone numbers"; "Prices and pricing information";
   "Dates and timestamps"].

(** A model server that answers every prompt with the prompt itself, one
    that is not running, and one that fails on prompts longer than 40
    characters. *)
Definition echo_ollama : ollama := Ollama (fun _ => None) (fun _ p => inl p).
Definition down_ollama : ollama :=
  Ollama (fun _ => Some "connection refused") (fun _ _ => inr "connection refused").
Definition picky_ollama : ollama :=
  Ollama (fun _ => None)
         (fun _ p => if 40 <? String.length p then inr "context too long" else inl p).

(** A page with one element of each structural kind. *)
Definition rich_tree : Soup.node :=
  Soup.Elem "[document]" []
    [Soup.Elem "h1" [] [Soup.Text "T"]; Soup.Elem "p" [] [Soup.Text "x@y.io"];
     Soup.Elem "a" [("href", "/a")] [Soup.Text "a"]; Soup.Elem "img" [("src", "i.png")] [];
     Soup.Elem "ul" [] [Soup.Elem "li" [] [Soup.Text "i"]];
     Soup.Elem "table" [] [Soup.Elem "tr" [] [Soup.Elem "td" [] [Soup.Text "c"]]];
     Soup.Elem "form" [] [Soup.Elem "input" [("name", "q")] []]].

(** A server answering [200] with a page that itself starts with the
    error marker. *)
Definition marker_world : world :=
  World (fun _ => Ok (HttpResponse 200 (error_marker +:+ " blocked")))
        (fun _ => Raise WebDriverException).

(** A search that finds every pattern. *)
Definition match_all : searcher := fun _ _ _ => true.

(* ------------------------------------------------------------------ *)
(** ** Observations on the chunker *)

(** The normalized text [create_content_chunks] hands to the splitter. *)
Definition chunk_input (L : lib) (c : content) : result string :=
  content_text ←
    match c with
    | CBundle _ dom _ => dom_text dom
    | CStr s =>
        match parse_rejected L s with
        | Some _ => Raise ParserRejectedMarkup
        | None => Ok (Soup.get_text (decompose ["script"; "style"] (html_parse L s)))
        end
    | COther r => Ok r
    end;
  Ok (Py.strip (collapse_ws content_text)).

(** The pieces of [s.split(sep)] put back together with [sep] between
    them, on character lists. *)
Definition glue (sep : list ascii) (ps : list string) : list ascii :=
  match ps with
  | [] => []
  | p :: qs => Py.to_list p ++ mjoin (map (fun q => sep ++ Py.to_list q) qs)
  end.

(** Two notions the proofs use: a byte list with no leading and no
    trailing character of [cs], and a byte list in which [w] does not
    occur. *)
Definition stripped_by (cs : list (list ascii)) (l : list ascii) : Prop :=
  Py.char_at cs l = None /\ Py.char_at (map (fun w => rev w) cs) (rev l) = None.
Definition free_of (w l : list ascii) : Prop := forall a b, l <> a ++ w ++ b.



Example urljoin_rel : Url.urljoin "https://a.com/x/y" "../z?q" = Ok "https://a.com/z?q".
Proof. reflexivity. Qed.

Example urljoin_root : Url.urljoin "https://a.com" "/p" = Ok "https://a.com/p".
Proof. reflexivity. Qed.

Example urljoin_netpath : Url.urljoin "https://a.com/x" "//b.org/c" = Ok "https://b.org/c".
Proof. reflexivity. Qed.

Example urljoin_mailto : Url.urljoin "https://a.com/x" "mailto:m@a.com" = Ok "mailto:m@a.com".
Proof. reflexivity. Qed.

Example split_small : Chunk.split_text 1000 200 "Hello world." = Ok ["Hello world."].
Proof. reflexivity. Qed.
Example urljoin_rel2 : Url.urljoin "https://a.com/x/y" "z" = Ok "https://a.com/x/z".
Proof. reflexivity. Qed.
Example urljoin_rel3 : Url.urljoin "https://a.com" "p" = Ok "https://a.com/p".
Proof. reflexivity. Qed.
Example urljoin_frag : Url.urljoin "https://a.com/x?k" "#f" = Ok "https://a.com/x?k#f".
Proof. reflexivity. Qed.
Example urljoin_bad : Url.urljoin "https://a.com/x" "http://[x" = Raise ValueError.
Proof. reflexivity. Qed.
Example split_two : Chunk.split_text 10 3 "aaaa bbbb cccc" = Ok ["aaaa bbbb"; "cccc"].
Proof. reflexivity. Qed.
Example extract_table_example :
  option_map tables (parse_dom_content (lib_of table_tree []) table_markup "https://example.com")
  = Some [[["A"; "B"]]].
Proof. reflexivity. Qed.
Example bad_link_none :
  parse_dom_content (lib_of bad_link_tree []) bad_link_markup "https://example.com" = None.
Proof. reflexivity. Qed.
Example port_host : url_host "https://example.com:8080/a" = Ok "example.com".
Proof. reflexivity. Qed.
Example marker_len : String.length error_marker = 3.
Proof. reflexivity. Qed.

(* ------------------------------------------------------------------ *)
(** ** Lemmas *)

Lemma prefix_app (p s : string) :
  String.prefix p s = true -> exists r, s = p +:+ r.
Proof.
  revert s; induction p as [|c p IH]; intros s H.
  - exists s; reflexivity.
  - destruct s as [|d s]; [discriminate|].
    simpl in H. destruct (Ascii.ascii_dec c d) as [->|]; [|discriminate].
    destruct (IH s H) as [r ->]. exists r; reflexivity.
Qed.

Lemma has_scheme_http (r : string) : has_scheme ("http://" +:+ r) = true.
Proof. reflexivity. Qed.

Lemma has_scheme_https (r : string) : has_scheme ("https://" +:+ r) = true.
Proof. reflexivity. Qed.

Lemma normalize_url_no_scheme (w : string) :
  has_scheme w = false -> normalize_url w = "https://" +:+ w.
Proof.
  intros H. unfold normalize_url.
  destruct (Py.startswith w "http://") eqn:E1.
  { apply prefix_app in E1 as [r ->]. by rewrite has_scheme_http in H. }
  destruct (Py.startswith w "https://") eqn:E2.
  { apply prefix_app in E2 as [r ->]. by rewrite has_scheme_https in H. }
  reflexivity.
Qed.

Lemma is_empty_false (s : string) : s <> "" -> Py.is_empty s = false.
Proof. destruct s; [congruence|reflexivity]. Qed.

(** The calls and the result of [scrape_website] on a non-empty input,
    in terms of what the two strategies return for the normalized URL. *)
Lemma scrape_website_unfold (L : lib) (W : world) (website : string) (parse_dom : bool) :
  website <> "" ->
  let w := normalize_url website in
  let html := if truthy (scrape_with_requests W w) then scrape_with_requests W w
              else scrape_with_selenium W w in
  scrape_website L W website parse_dom =
    (match html with
     | Some h =>
         if Py.is_empty h then RStr all_failed_message
         else if parse_dom then RBundle h (parse_dom_content L h w) w else RStr h
     | None => RStr all_failed_message
     end,
     if truthy (scrape_with_requests W w) then [(Requests, w)]
     else [(Requests, w); (Selenium, w)]).
Proof.
  intros Hne w html. unfold scrape_website. rewrite (is_empty_false _ Hne).
  fold w. subst html. destruct (truthy (scrape_with_requests W w)); simpl.
  - destruct (scrape_with_requests W w) as [h|]; [|reflexivity].
    destruct (Py.is_empty h), parse_dom; reflexivity.
  - destruct (scrape_with_selenium W w) as [h|]; [|reflexivity].
    destruct (Py.is_empty h), parse_dom; reflexivity.
Qed.

(* ------------------------------------------------------------------ *)
(** ** The fetch orchestrator *)

(** Claim C1 (as stated, refuted): a server answering [204 No Content]
    makes Strategy A return markup (the empty body), not a failure, and
    [scrape_website] still goes on to call Strategy B. *)
Lemma C1_strategy_b_after_a_success :
  scrape_with_requests no_content_world "https://example.com" = Some ""
  /\ snd (scrape_website empty_lib no_content_world "example.com" false)
     = [(Requests, "https://example.com"); (Selenium, "https://example.com")].
Proof. split; reflexivity. Qed.

(** Claim C1 (amended): for a non-empty input, [scrape_website] calls
    Strategy A exactly once, first, on the normalized URL, and calls
    Strategy B once after it exactly when A's result is falsy ([None] on
    failure, or an empty body); when A yields no markup and B yields
    non-empty markup [m], the call returns [m] (inside the bundle when
    [parse_dom] is set). *)
Theorem scrape_website_fallback (L : lib) (W : world) (website : string)
    (parse_dom : bool) (Hne : website <> "") :
  let w := normalize_url website in
  snd (scrape_website L W website parse_dom)
    = (if truthy (scrape_with_requests W w) then [(Requests, w)]
       else [(Requests, w); (Selenium, w)])
  /\ (truthy (scrape_with_requests W w) = false ->
      forall m, scrape_with_selenium W w = Some m -> m <> "" ->
      fst (scrape_website L W website parse_dom)
        = if parse_dom then RBundle m (parse_dom_content L m w) w else RStr m).
Proof.
  intros w. rewrite (scrape_website_unfold L W website parse_dom Hne). fold w.
  split; [reflexivity|].
  intros Ha m Hb Hm. rewrite Ha, Hb. simpl.
  by rewrite (is_empty_false _ Hm).
Qed.

Lemma scrape_website_fallback_witness :
  "example.com" <> "" /\
  (let w := normalize_url "example.com" in
   snd (scrape_website empty_lib fallback_world "example.com" false)
     = (if truthy (scrape_with_requests fallback_world w) then [(Requests, w)]
        else [(Requests, w); (Selenium, w)])
   /\ (truthy (scrape_with_requests fallback_world w) = false ->
       forall m, scrape_with_selenium fallback_world w = Some m -> m <> "" ->
       fst (scrape_website empty_lib fallback_world "example.com" false)
         = if false then RBundle m (parse_dom_content empty_lib m w) w else RStr m)).
Proof.
  split; [discriminate|].
  apply (scrape_website_fallback empty_lib fallback_world "example.com" false).
  discriminate.
Defined.

(** Claim C5: when both strategies fail, [scrape_website] returns the
    failure string, which starts with the error marker, and no markup or
    bundle; the callers' marker test classifies it as a failure. *)
Theorem scrape_website_all_failed (L : lib) (W : world) (website : string)
    (parse_dom : bool) (Hne : website <> "")
    (HA : scrape_with_requests W (normalize_url website) = None)
    (HB : scrape_with_selenium W (normalize_url website) = None) :
  fst (scrape_website L W website parse_dom) = RStr all_failed_message
  /\ Py.startswith all_failed_message error_marker = true
  /\ is_failure (fst (scrape_website L W website parse_dom)) = true.
Proof.
  rewrite (scrape_website_unfold L W website parse_dom Hne). rewrite HA. simpl.
  rewrite HB. split; [reflexivity|]. split; reflexivity.
Qed.

Lemma scrape_website_all_failed_witness :
  fst (scrape_website empty_lib offline_world "example.com" true) = RStr all_failed_message
  /\ Py.startswith all_failed_message error_marker = true
  /\ is_failure (fst (scrape_website empty_lib offline_world "example.com" true)) = true.
Proof.
  apply (scrape_website_all_failed empty_lib offline_world "example.com" true);
    [discriminate | reflexivity | reflexivity].
Defined.

(** Claim C6: a non-empty input without a scheme is prefixed with
    ["https://"] before any strategy runs: every strategy call, the first
    being Strategy A, receives ["https://" + website]. *)
Theorem scrape_website_adds_https (L : lib) (W : world) (website : string)
    (parse_dom : bool) (Hne : website <> "") (Hns : has_scheme website = false) :
  head (snd (scrape_website L W website parse_dom)) = Some (Requests, "https://" +:+ website)
  /\ Forall (fun c => snd c = "https://" +:+ website)
            (snd (scrape_website L W website parse_dom)).
Proof.
  rewrite (scrape_website_unfold L W website parse_dom Hne).
  rewrite (normalize_url_no_scheme _ Hns). simpl.
  destruct (truthy _); simpl; split; auto.
Qed.

Lemma scrape_website_adds_https_witness :
  head (snd (scrape_website empty_lib offline_world "example.com" false))
    = Some (Requests, "https://example.com")
  /\ Forall (fun c => snd c = "https://example.com")
            (snd (scrape_website empty_lib offline_world "example.com" false)).
Proof.
  apply (scrape_website_adds_https empty_lib offline_world "example.com" false);
    [discriminate | reflexivity].
Defined.

(* ------------------------------------------------------------------ *)
(** ** The structural extractor *)

Lemma mapM_Ok {A B} (f : A -> result B) (xs : list A) (ys : list B) :
  mapM f xs = Ok ys -> Forall2 (fun x y => f x = Ok y) xs ys.
Proof.
  revert ys; induction xs as [|x xs IH]; intros ys H; simpl in H.
  - injection H as <-. constructor.
  - destruct (f x) as [y|e] eqn:Ef; [|discriminate]. simpl in H.
    destruct (mapM f xs) as [ys'|e] eqn:Em; [|discriminate]. simpl in H.
    injection H as <-. constructor; auto.
Qed.

Lemma parse_dom_content_Some (L : lib) (html base : string) (d : dom_data) :
  parse_dom_content L html base = Some d <->
  Py.is_empty html = false /\ Py.startswith html error_marker = false
  /\ parse_rejected L html = None
  /\ parse_dom_body L (html_parse L html) base = Ok d.
Proof.
  unfold parse_dom_content.
  destruct (Py.is_empty html), (Py.startswith html error_marker); simpl;
    try (split; [discriminate | intros (? & ? & ?); discriminate]).
  destruct (parse_rejected L html);
    [split; [discriminate | intros (_ & _ & ? & _); discriminate]|].
  destruct (parse_dom_body L (html_parse L html) base) as [d'|e]; split.
  - intros [= ->]. auto.
  - intros (_ & _ & _ & [= ->]). reflexivity.
  - discriminate.
  - intros (_ & _ & _ & ?); discriminate.
Qed.

(** Each field of a document built by [parse_dom_body] is the result of
    its own extraction step. *)
Lemma parse_dom_body_fields (L : lib) (soup : Soup.node) (base : string) (d : dom_data) :
  parse_dom_body L soup base = Ok d ->
  extract_title soup = Ok (title d)
  /\ extract_links base soup = Ok (links d)
  /\ extract_images base soup = Ok (images d)
  /\ meta_description d = extract_meta_description soup
  /\ dom_headings d = Headings (texts_of "h1" soup) (texts_of "h2" soup) (texts_of "h3" soup)
  /\ paragraphs d = extract_paragraphs soup
  /\ lists d = extract_lists soup
  /\ tables d = extract_tables soup
  /\ forms d = extract_forms soup
  /\ dom_contact_info d = extract_contact_info L soup.
Proof.
  unfold parse_dom_body, mbind, result_bind.
  destruct (extract_title soup) as [t|]; [|discriminate].
  destruct (extract_links base soup) as [ls|]; [|discriminate].
  destruct (extract_images base soup) as [is|]; [|discriminate].
  intros [= <-]. simpl. repeat split.
Qed.

Lemma parse_dom_content_fields (L : lib) (html base : string) (d : dom_data) :
  parse_dom_content L html base = Some d ->
  let soup := html_parse L html in
  extract_title soup = Ok (title d)
  /\ extract_links base soup = Ok (links d)
  /\ extract_images base soup = Ok (images d)
  /\ meta_description d = extract_meta_description soup
  /\ dom_headings d = Headings (texts_of "h1" soup) (texts_of "h2" soup) (texts_of "h3" soup)
  /\ paragraphs d = extract_paragraphs soup
  /\ lists d = extract_lists soup
  /\ tables d = extract_tables soup
  /\ forms d = extract_forms soup
  /\ dom_contact_info d = extract_contact_info L soup.
Proof.
  intros H. apply parse_dom_content_Some in H as (_ & _ & _ & H).
  exact (parse_dom_body_fields L _ base d H).
Qed.

(** Claim C2 (as stated, refuted): a page with a paragraph and one link
    whose URL has an unbalanced IPv6 bracket gives no structured document:
    [urljoin] raises [ValueError], the [except] clause catches it and the
    whole extraction yields [None].  Markup the parser rejects gives
    [None] as well. *)
Lemma C2_malformed_link_no_document :
  parse_dom_content (lib_of bad_link_tree []) bad_link_markup "https://example.com" = None
  /\ extract_paragraphs bad_link_tree = ["x"]
  /\ Url.urljoin "https://example.com" "http://[x" = Raise ValueError
  /\ parse_dom_content rejecting_lib "<![UNKNOWN[]]>" "https://example.com" = None.
Proof. repeat split; reflexivity. Qed.

(** Claim C2 (amended): [parse_dom_content] never raises.  It returns
    [None] exactly when the markup is empty, starts with the error marker,
    is rejected by the parser, or one of its extraction steps raises (the
    exception is caught); otherwise every kind of element the page lacks
    gives an empty field (and the default title); a page the parser
    accepts, without title, links and images, always gives a document. *)
Theorem parse_dom_content_tolerant (L : lib) (html base : string) :
  (parse_dom_content L html base = None <->
     Py.is_empty html = true \/ Py.startswith html error_marker = true
     \/ parse_rejected L html <> None
     \/ exists e, parse_dom_body L (html_parse L html) base = Raise e)
  /\ (forall d, parse_dom_content L html base = Some d ->
      let soup := html_parse L html in
      (Soup.find "title" soup = None -> title d = "No title found")
      /\ (Soup.find_all ["meta"] soup = [] -> meta_description d = "")
      /\ (Soup.find_all ["h1"] soup = [] -> h1 (dom_headings d) = [])
      /\ (Soup.find_all ["h2"] soup = [] -> h2 (dom_headings d) = [])
      /\ (Soup.find_all ["h3"] soup = [] -> h3 (dom_headings d) = [])
      /\ (Soup.find_all ["a"] soup = [] -> links d = [])
      /\ (Soup.find_all ["img"] soup = [] -> images d = [])
      /\ (Soup.find_all ["p"] soup = [] -> paragraphs d = [])
      /\ (Soup.find_all ["ul"; "ol"] soup = [] -> lists d = [])
      /\ (Soup.find_all ["table"] soup = [] -> tables d = [])
      /\ (Soup.find_all ["form"] soup = [] -> forms d = []))
  /\ (Py.is_empty html = false -> Py.startswith html error_marker = false ->
      parse_rejected L html = None ->
      Soup.find "title" (html_parse L html) = None ->
      Soup.find_all ["a"] (html_parse L html) = [] ->
      Soup.find_all ["img"] (html_parse L html) = [] ->
      exists d, parse_dom_content L html base = Some d).
Proof.
  split; [|split].
  - unfold parse_dom_content.
    destruct (Py.is_empty html), (Py.startswith html error_marker); simpl;
      try (split; [auto | reflexivity]).
    destruct (parse_rejected L html) as [msg|].
    { split; [|reflexivity]. intros _. right; right; left. discriminate. }
    destruct (parse_dom_body L (html_parse L html) base) as [d|e]; split.
    + discriminate.
    + intros [?|[?|[?|[e ?]]]]; [discriminate | discriminate | congruence | discriminate].
    + eauto 10.
    + reflexivity.
  - intros d H soup.
    destruct (parse_dom_content_fields L html base d H)
      as (Ht & Hl & Hi & Hm & Hh & Hp & Hls & Htb & Hf & _).
    fold soup in Ht, Hl, Hi, Hm, Hh, Hp, Hls, Htb, Hf.
    repeat split; intros E.
    + unfold extract_title in Ht. rewrite E in Ht. by injection Ht as <-.
    + rewrite Hm. unfold extract_meta_description. by rewrite E.
    + rewrite Hh. unfold texts_of. by rewrite E.
    + rewrite Hh. unfold texts_of. by rewrite E.
    + rewrite Hh. unfold texts_of. by rewrite E.
    + unfold extract_links in Hl. rewrite E in Hl. simpl in Hl. by injection Hl as <-.
    + unfold extract_images in Hi. rewrite E in Hi. simpl in Hi. by injection Hi as <-.
    + rewrite Hp. unfold extract_paragraphs, texts_of. by rewrite E.
    + rewrite Hls. unfold extract_lists. by rewrite E.
    + rewrite Htb. unfold extract_tables. by rewrite E.
    + rewrite Hf. unfold extract_forms. by rewrite E.
  - intros He Hs Hr Ht Ha Hi.
    unfold parse_dom_content. rewrite He, Hs, Hr. simpl.
    unfold parse_dom_body, mbind, result_bind, extract_title, extract_links, extract_images.
    rewrite Ht, Ha, Hi. simpl. eauto.
Qed.

(** Claim C7: the stored emails and phone numbers have no repeated value,
    whatever the pattern matches are. *)
Theorem contact_info_no_duplicates (L : lib) (html base : string) (d : dom_data)
    (H : parse_dom_content L html base = Some d) :
  NoDup (emails (dom_contact_info d)) /\ NoDup (phones (dom_contact_info d)).
Proof.
  destruct (parse_dom_content_fields L html base d H) as (_ & _ & _ & _ & _ & _ & _ & _ & _ & Hc).
  rewrite Hc. unfold extract_contact_info, list_of_set. simpl.
  split; apply NoDup_elements.
Qed.

Lemma contact_info_no_duplicates_witness :
  parse_dom_content (lib_of (Soup.Elem "[document]" [] [Soup.Text "a@b.co a@b.co"])
                            ["a@b.co"; "a@b.co"])
                    "a@b.co a@b.co" "https://example.com"
    = Some (DomData "No title found" "" (Headings [] [] []) [] [] [] [] [] []
                    (ContactInfo ["a@b.co"] ["a@b.co"] []))
  /\ NoDup (emails (dom_contact_info
       (DomData "No title found" "" (Headings [] [] []) [] [] [] [] [] []
                (ContactInfo ["a@b.co"] ["a@b.co"] []))))
  /\ NoDup (phones (dom_contact_info
       (DomData "No title found" "" (Headings [] [] []) [] [] [] [] [] []
                (ContactInfo ["a@b.co"] ["a@b.co"] [])))).
Proof.
  split; [vm_compute; reflexivity|].
  apply (contact_info_no_duplicates
           (lib_of (Soup.Elem "[document]" [] [Soup.Text "a@b.co a@b.co"]) ["a@b.co"; "a@b.co"])
           "a@b.co a@b.co" "https://example.com").
  vm_compute. reflexivity.
Defined.

(** Claim C10: on success the contact information has an [addresses]
    entry, and it is always the empty list. *)
Theorem contact_info_addresses_empty (L : lib) (html base : string) (d : dom_data)
    (H : parse_dom_content L html base = Some d) :
  addresses (dom_contact_info d) = [].
Proof.
  destruct (parse_dom_content_fields L html base d H) as (_ & _ & _ & _ & _ & _ & _ & _ & _ & Hc).
  by rewrite Hc.
Qed.

Lemma contact_info_addresses_empty_witness :
  addresses (dom_contact_info
    (DomData "No title found" "" (Headings [] [] []) [] [] [] [] [[["A"; "B"]]] []
             (ContactInfo [] [] []))) = [].
Proof.
  apply (contact_info_addresses_empty (lib_of table_tree []) table_markup "https://example.com").
  reflexivity.
Defined.

Lemma mapM_elem {A B} (f : A -> result B) (xs : list A) (ys : list B) (y : B) :
  mapM f xs = Ok ys -> y ∈ ys -> exists x, x ∈ xs /\ f x = Ok y.
Proof.
  intros H Hy. apply mapM_Ok in H.
  induction H as [|x y' xs ys' Hf _ IH].
  - by apply elem_of_nil in Hy.
  - apply elem_of_cons in Hy as [->|Hy].
    + exists x. split; [apply elem_of_cons; by left|done].
    + destruct (IH Hy) as (x' & Hx' & Hf'). exists x'.
      split; [apply elem_of_cons; by right|done].
Qed.

(** Claim C3 (a defect): links and images go through [urljoin], but a
    form's [action] is stored as written, so a relative action stays
    relative. *)
Theorem form_action_not_resolved (L : lib) (Hok : parse_rejected L form_markup = None)
    (H : html_parse L form_markup = form_tree) :
  option_map (fun d => map form_action (forms d))
             (parse_dom_content L form_markup "https://example.com") = Some ["/submit"]
  /\ has_scheme "/submit" = false
  /\ Url.urljoin "https://example.com" "/submit" = Ok "https://example.com/submit".
Proof.
  unfold parse_dom_content. rewrite Hok, H. split; [|split]; reflexivity.
Qed.

Lemma form_action_not_resolved_witness :
  option_map (fun d => map form_action (forms d))
             (parse_dom_content (lib_of form_tree []) form_markup "https://example.com")
    = Some ["/submit"]
  /\ has_scheme "/submit" = false
  /\ Url.urljoin "https://example.com" "/submit" = Ok "https://example.com/submit".
Proof. apply (form_action_not_resolved (lib_of form_tree [])); reflexivity. Defined.

(** Claim C4 (as stated, refuted): a link to the base host on another
    port has the same host as the base URL but is marked external, since
    the code compares the whole netloc. *)
Lemma C4_same_host_other_port_external :
  option_map links (parse_dom_content (lib_of port_link_tree []) port_link_markup
                                      "https://example.com")
    = Some [Link "t" "https://example.com:8080/a" true]
  /\ url_host "https://example.com:8080/a" = url_host "https://example.com".
Proof. split; reflexivity. Qed.

(** Claim C4 (amended): for every extracted link, [is_external] is true
    iff the netloc of the resolved link URL (user information, host and
    port, compared exactly) differs from the netloc of the base URL. *)
Theorem is_external_iff_netloc_differs (L : lib) (html base : string) (d : dom_data)
    (l : link) (H : parse_dom_content L html base = Some d) (Hl : l ∈ links d) :
  exists lp bp,
    Url.urlparse (link_url l) "" = Ok lp /\ Url.urlparse base "" = Ok bp
    /\ (is_external l = true <-> Url.pr_netloc lp <> Url.pr_netloc bp).
Proof.
  destruct (parse_dom_content_fields L html base d H) as (_ & Hls & _).
  unfold extract_links in Hls.
  destruct (mapM _ _) as [ls|e] eqn:Em; [|discriminate].
  injection Hls as Hls. rewrite <- Hls in Hl.
  apply list_elem_of_omap in Hl as (o & Ho & Hid). simpl in Hid. subst o.
  destruct (mapM_elem _ _ _ _ Em Ho) as (a & _ & Ha).
  unfold extract_link, mbind, result_bind in Ha.
  destruct (Url.urljoin base _) as [u|]; [|discriminate].
  destruct (Py.is_empty _); [discriminate|].
  destruct (Url.urlparse u "") as [lp|] eqn:Elp; [|discriminate].
  destruct (Url.urlparse base "") as [bp|] eqn:Ebp; [|discriminate].
  injection Ha as <-. simpl. exists lp, bp. split; [done|]. split; [done|].
  unfold Py.str_eqb. destruct (String.eqb_spec (Url.pr_netloc lp) (Url.pr_netloc bp));
    simpl; split; congruence.
Qed.

Lemma is_external_iff_netloc_differs_witness :
  exists lp bp,
    Url.urlparse (link_url (Link "t" "https://example.com:8080/a" true)) "" = Ok lp
    /\ Url.urlparse "https://example.com" "" = Ok bp
    /\ (is_external (Link "t" "https://example.com:8080/a" true) = true
        <-> Url.pr_netloc lp <> Url.pr_netloc bp).
Proof.
  apply (is_external_iff_netloc_differs (lib_of port_link_tree []) port_link_markup
           "https://example.com"
           (DomData "No title found" "" (Headings [] [] [])
              [Link "t" "https://example.com:8080/a" true] [] [] [] [] []
              (ContactInfo [] [] []))).
  - vm_compute. reflexivity.
  - apply elem_of_cons. by left.
Defined.

(* ------------------------------------------------------------------ *)
(** ** Tables *)

Lemma omap_nonempty_filter {A B} (f : A -> option (list B)) (g : A -> list B)
    (xs : list A) :
  (forall x, f x = match g x with [] => None | _ => Some (g x) end) ->
  omap f xs = filter (fun t => t <> []) (map g xs).
Proof.
  intros Hf. induction xs as [|x xs IH]; [reflexivity|].
  simpl. rewrite filter_cons, <- IH, Hf.
  destruct (g x) as [|y ys]; case_decide; try congruence; reflexivity.
Qed.

Lemma extract_tables_spec (soup : Soup.node) :
  extract_tables soup = spec_tables soup.
Proof.
  unfold extract_tables, spec_tables.
  erewrite (omap_nonempty_filter _ table_rows); [|intros t; by destruct (table_rows t)].
  f_equal. apply map_ext. intros table.
  unfold table_rows.
  erewrite omap_nonempty_filter; [reflexivity|].
  intros row. simpl. by destruct (map _ _).
Qed.

(** Claim C9 (as stated, refuted): [tables] holds one row list per table,
    so the example markup gives [[[["A","B"]]]], which Python's [==]
    tells apart from [[["A","B"]]]. *)
Lemma C9_example_nesting :
  option_map (fun d => tables_to_py (tables d))
    (parse_dom_content (lib_of table_tree []) table_markup "https://example.com")
    = Some (PyList [PyList [PyList [PyStr "A"; PyStr "B"]]])
  /\ PyList [PyList [PyList [PyStr "A"; PyStr "B"]]] <> PyList [PyList [PyStr "A"; PyStr "B"]].
Proof. split; [reflexivity | discriminate]. Qed.

(** Claim C9 (amended): [tables] has one entry per table of the page,
    in document order, each the list of its rows as cell texts; rows
    without cells and tables without rows are left out.  The example
    markup gives [tables == [[["A","B"]]]]. *)
Theorem tables_extraction (L : lib) (base : string)
    (Hok : parse_rejected L table_markup = None)
    (Hparse : html_parse L table_markup = table_tree) :
  (forall html d, parse_dom_content L html base = Some d ->
                  tables d = spec_tables (html_parse L html))
  /\ option_map tables (parse_dom_content L table_markup base) = Some [[["A"; "B"]]].
Proof.
  split.
  - intros html d H.
    destruct (parse_dom_content_fields L html base d H) as (_ & _ & _ & _ & _ & _ & _ & Ht & _).
    rewrite Ht. apply extract_tables_spec.
  - unfold parse_dom_content. rewrite Hok, Hparse. reflexivity.
Qed.

Lemma tables_extraction_witness :
  (forall html d, parse_dom_content (lib_of table_tree []) html "https://example.com" = Some d ->
                  tables d = spec_tables (html_parse (lib_of table_tree []) html))
  /\ option_map tables (parse_dom_content (lib_of table_tree []) table_markup
                                          "https://example.com") = Some [[["A"; "B"]]].
Proof. apply (tables_extraction (lib_of table_tree []) "https://example.com"); reflexivity. Defined.

(* ------------------------------------------------------------------ *)
(** ** The chunker *)

(** Claim C8: for empty input text [create_content_chunks] returns the
    empty list of chunks (no exception, no empty chunk), for every chunk
    size and overlap the splitter accepts (a positive size, an overlap
    not above it), such as the defaults 1000 and 200. *)
Theorem chunks_of_empty_text (L : lib) (chunk_size chunk_overlap : nat)
    (Hok : parse_rejected L "" = None) (Hparse : html_parse L "" = empty_soup)
    (Hsize : 0 < chunk_size) (Hov : chunk_overlap <= chunk_size) :
  create_content_chunks L (CStr "") chunk_size chunk_overlap = Ok [].
Proof.
  unfold create_content_chunks. rewrite Hok, Hparse. simpl.
  unfold Chunk.split_text.
  destruct chunk_size as [|n]; [lia|].
  replace (S n <? chunk_overlap) with false by (symmetry; apply Nat.ltb_ge; lia).
  reflexivity.
Qed.

Lemma chunks_of_empty_text_witness :
  create_content_chunks empty_lib (CStr "") 1000 200 = Ok [].
Proof. apply (chunks_of_empty_text empty_lib 1000 200); [reflexivity | reflexivity | lia | lia]. Defined.

(* ------------------------------------------------------------------ *)
(** ** Strings: stripping, splitting and joining *)

Lemma append_String (c : ascii) (s t : string) : String c s +:+ t = String c (s +:+ t).
Proof. reflexivity. Qed.

Lemma append_Empty (t : string) : "" +:+ t = t.
Proof. reflexivity. Qed.

Lemma to_list_app (s t : string) : Py.to_list (s +:+ t) = Py.to_list s ++ Py.to_list t.
Proof.
  induction s as [|c s IH]; [reflexivity|].
  rewrite append_String. change (c :: Py.to_list (s +:+ t) = c :: Py.to_list s ++ Py.to_list t).
  by rewrite IH.
Qed.

Lemma of_list_app (l1 l2 : list ascii) :
  Py.of_list (l1 ++ l2) = Py.of_list l1 +:+ Py.of_list l2.
Proof.
  induction l1 as [|c l1 IH]; [reflexivity|].
  change (String c (Py.of_list (l1 ++ l2)) = String c (Py.of_list l1) +:+ Py.of_list l2).
  by rewrite IH, append_String.
Qed.

Lemma string_app_assoc (a b c : string) : (a +:+ b) +:+ c = a +:+ (b +:+ c).
Proof. induction a as [|d a IH]; [reflexivity|]. rewrite !append_String. by rewrite IH. Qed.

Lemma of_to (s : string) : Py.of_list (Py.to_list s) = s.
Proof. apply String.string_of_list_ascii_of_string. Qed.

Lemma to_of (l : list ascii) : Py.to_list (Py.of_list l) = l.
Proof. apply String.list_ascii_of_string_of_list_ascii. Qed.

Lemma length_to_list (s : string) : length (Py.to_list s) = String.length s.
Proof. induction s as [|c s IH]; simpl; [reflexivity | by rewrite IH]. Qed.


(** Byte-sequence matching. *)
Lemma starts_with_spec (w l : list ascii) : Py.starts_with w l = true <-> w `prefix_of` l.
Proof.
  revert l; induction w as [|c w IH]; intros [|d l]; simpl.
  - split; [intros _; apply prefix_nil | done].
  - split; [intros _; apply prefix_nil | done].
  - split; [discriminate | intros Hp; apply prefix_nil_inv in Hp; discriminate].
  - rewrite andb_true_iff, IH, Ascii.eqb_eq. split.
    + intros [-> H]. by apply prefix_cons.
    + intros H. split; [exact (prefix_cons_inv_1 _ _ _ _ H) | exact (prefix_cons_inv_2 _ _ _ _ H)].
Qed.

Lemma char_at_None (cs : list (list ascii)) (l : list ascii) :
  Py.char_at cs l = None <-> forall w, w ∈ cs -> ~ w `prefix_of` l.
Proof.
  unfold Py.char_at. induction cs as [|w cs IH]; simpl.
  - split; [intros _ w Hw; by apply elem_of_nil in Hw | done].
  - destruct (Py.starts_with w l) eqn:E.
    + split; [discriminate|]. intros H. exfalso.
      apply (H w); [apply elem_of_cons; by left | by apply starts_with_spec].
    + rewrite IH. split.
      * intros H w' Hw'. apply elem_of_cons in Hw' as [->|Hw']; [|by apply H].
        intros Hp. apply starts_with_spec in Hp. congruence.
      * intros H w' Hw'. apply H. apply elem_of_cons. by right.
Qed.

Lemma char_at_Some (cs : list (list ascii)) (l w : list ascii) :
  Py.char_at cs l = Some w -> w ∈ cs /\ w `prefix_of` l.
Proof.
  unfold Py.char_at. intros H. apply find_some in H as [Hin Hs].
  split; [by apply list_elem_of_In | by apply starts_with_spec].
Qed.

(** Having no leading character of [cs] carries over to prefixes. *)
Lemma char_at_None_prefix (cs : list (list ascii)) (p l : list ascii) :
  Py.char_at cs l = None -> p `prefix_of` l -> Py.char_at cs p = None.
Proof.
  rewrite !char_at_None. intros H Hp w Hw Hwp. apply (H w Hw). by etrans.
Qed.

Lemma lstrip_seq_suffix (cs : list (list ascii)) (f : nat) (l : list ascii) :
  exists k, Py.lstrip_seq cs f l = drop k l.
Proof.
  revert l; induction f as [|f IH]; intros l; simpl.
  - exists 0. by rewrite drop_0.
  - destruct (Py.char_at cs l) as [w|].
    + destruct (IH (drop (length w) l)) as [k ->]. exists (length w + k). by rewrite drop_drop.
    + exists 0. by rewrite drop_0.
Qed.

Lemma lstrip_seq_none (cs : list (list ascii)) (f : nat) (l : list ascii) :
  Forall (fun w => w <> []) cs -> length l <= f ->
  Py.char_at cs (Py.lstrip_seq cs f l) = None.
Proof.
  intros Hne. revert l; induction f as [|f IH]; intros l Hl; simpl.
  - destruct l; [|simpl in Hl; lia]. apply char_at_None. intros w Hw Hp.
    apply prefix_nil_inv in Hp. rewrite Forall_forall in Hne. by apply (Hne w).
  - destruct (Py.char_at cs l) as [w|] eqn:E; [|exact E].
    apply IH. apply char_at_Some in E as [Hin _].
    rewrite Forall_forall in Hne. specialize (Hne w Hin).
    rewrite length_drop. destruct w; [done|]. simpl. lia.
Qed.

Lemma lstrip_seq_id (cs : list (list ascii)) (f : nat) (l : list ascii) :
  Py.char_at cs l = None -> Py.lstrip_seq cs f l = l.
Proof. destruct f; simpl; [done|]. by intros ->. Qed.

Lemma rev_nonempty (cs : list (list ascii)) :
  Forall (fun w => w <> []) cs -> Forall (fun w => w <> []) (map (fun w => rev w) cs).
Proof.
  intros H. apply Forall_map. eapply Forall_impl; [exact H|].
  intros w Hw E. apply Hw. apply (f_equal length) in E. rewrite length_rev in E.
  by destruct w.
Qed.

Lemma rstrip_list_prefix (cs : list (list ascii)) (l : list ascii) :
  Py.rstrip_list cs l `prefix_of` l.
Proof.
  unfold Py.rstrip_list, Py.lstrip_list.
  destruct (lstrip_seq_suffix (map (fun w => rev w) cs) (length (rev l)) (rev l)) as [k ->].
  exists (rev (take k (rev l))).
  rewrite <- rev_app_distr, take_drop. by rewrite rev_involutive.
Qed.

Lemma lstrip_list_suffix (cs : list (list ascii)) (l : list ascii) :
  Py.lstrip_list cs l `suffix_of` l.
Proof.
  unfold Py.lstrip_list. destruct (lstrip_seq_suffix cs (length l) l) as [k ->].
  exists (take k l). by rewrite take_drop.
Qed.


Lemma strip_list_stripped (cs : list (list ascii)) (l : list ascii) :
  Forall (fun w => w <> []) cs ->
  stripped_by cs (Py.rstrip_list cs (Py.lstrip_list cs l)).
Proof.
  intros Hne. split.
  - apply (char_at_None_prefix _ _ (Py.lstrip_list cs l)); [|apply rstrip_list_prefix].
    by apply lstrip_seq_none.
  - unfold Py.rstrip_list at 1. rewrite rev_involutive.
    apply lstrip_seq_none; [by apply rev_nonempty | lia].
Qed.

Lemma strip_list_id (cs : list (list ascii)) (l : list ascii) :
  stripped_by cs l -> Py.rstrip_list cs (Py.lstrip_list cs l) = l.
Proof.
  intros [Hl Hr]. unfold Py.lstrip_list. rewrite lstrip_seq_id by exact Hl.
  unfold Py.rstrip_list, Py.lstrip_list. rewrite lstrip_seq_id by exact Hr.
  apply rev_involutive.
Qed.

Lemma strip_list_infix (cs : list (list ascii)) (l : list ascii) :
  exists a b, l = a ++ Py.rstrip_list cs (Py.lstrip_list cs l) ++ b.
Proof.
  destruct (lstrip_list_suffix cs l) as [a Ha].
  destruct (rstrip_list_prefix cs (Py.lstrip_list cs l)) as [b Hb].
  exists a, b. by rewrite <- Hb.
Qed.

Lemma space_chars_nonempty : Forall (fun w => w <> []) Py.space_chars.
Proof. vm_compute. repeat constructor; discriminate. Qed.

Lemma strip_to_list (s : string) :
  Py.to_list (Py.strip s)
  = Py.rstrip_list Py.space_chars (Py.lstrip_list Py.space_chars (Py.to_list s)).
Proof. unfold Py.strip. apply to_of. Qed.

Lemma strip_stripped (s : string) : stripped_by Py.space_chars (Py.to_list (Py.strip s)).
Proof. rewrite strip_to_list. apply strip_list_stripped, space_chars_nonempty. Qed.

Lemma strip_iff (s : string) : Py.strip s = s <-> stripped_by Py.space_chars (Py.to_list s).
Proof.
  split.
  - intros <-. apply strip_stripped.
  - intros H. unfold Py.strip. rewrite strip_list_id by exact H. apply of_to.
Qed.

Lemma strip_idem (s : string) : Py.strip (Py.strip s) = Py.strip s.
Proof. apply strip_iff, strip_stripped. Qed.

Lemma strip_infix (s : string) :
  exists a b, Py.to_list s = a ++ Py.to_list (Py.strip s) ++ b.
Proof. rewrite strip_to_list. apply strip_list_infix. Qed.

(** A separator that no character of [cs] has after its first byte. *)
Lemma lead_app_sep (cs : list (list ascii)) (sp : ascii) (x y : list ascii) :
  Forall (fun w => sp ∉ tail w) cs -> x <> [] ->
  Py.char_at cs x = None -> Py.char_at cs (x ++ sp :: y) = None.
Proof.
  intros Hsp Hx. rewrite !char_at_None. intros Hn w Hw [k Hk].
  apply app_eq_inv in Hk as [(m & Ex & Hm)|(m & Ew & Hm)].
  - apply (Hn w Hw). exists m. exact Ex.
  - destruct m as [|d m].
    + apply (Hn w Hw). exists []. by rewrite Ew, !app_nil_r.
    + injection Hm as <- _. rewrite Forall_forall in Hsp. apply (Hsp _ Hw). rewrite Ew.
      destruct x as [|e x]; [done|]. simpl. apply elem_of_app. right. apply elem_of_cons. by left.
Qed.

Lemma stripped_app_sep (cs : list (list ascii)) (sp : ascii) (x y : list ascii) :
  Forall (fun w => (sp ∉ tail w) /\ (sp ∉ tail (rev w))) cs ->
  x <> [] -> y <> [] -> stripped_by cs x -> stripped_by cs y ->
  stripped_by cs (x ++ (sp :: y)).
Proof.
  intros Hsp Hx Hy [Hx1 _] [_ Hy2]. split.
  - apply lead_app_sep; [|done|done]. eapply Forall_impl; [exact Hsp|]. by intros w [? _].
  - rewrite rev_app_distr. simpl. rewrite <- app_assoc. simpl.
    apply lead_app_sep; [| |done].
    + apply Forall_map. eapply Forall_impl; [exact Hsp|]. by intros w [_ ?].
    + intros E. apply Hy. apply (f_equal length) in E. rewrite length_rev in E. by destruct y.
Qed.

Lemma space_chars_sep :
  Forall (fun w => (" "%char ∉ tail w) /\ (" "%char ∉ tail (rev w))) Py.space_chars.
Proof. apply (bool_decide_unpack _). vm_compute. reflexivity. Qed.

Lemma strip_join_space (xs : list string) :
  Forall (fun x => x <> "" /\ Py.strip x = x) xs ->
  Py.strip (Py.join " " xs) = Py.join " " xs.
Proof.
  intros Hxs. apply strip_iff. destruct xs as [|x xs].
  { split; reflexivity. }
  assert (H : Py.to_list (Py.join " " (x :: xs)) <> []
              /\ stripped_by Py.space_chars (Py.to_list (Py.join " " (x :: xs)))).
  { revert x Hxs. induction xs as [|y ys IH]; intros x Hxs;
      inversion Hxs as [|? ? [Hx Hsx] Hr]; subst.
    - split; [by destruct x | by apply strip_iff].
    - destruct (IH y Hr) as [Hne Hst].
      change (Py.join " " (x :: y :: ys)) with (x +:+ (" " +:+ Py.join " " (y :: ys))).
      rewrite !to_list_app. change (Py.to_list " ") with [" "%char]. simpl.
      split; [by destruct x|].
      apply stripped_app_sep; [apply space_chars_sep | by destruct x | done | by apply strip_iff | done]. }
  apply H.
Qed.


Lemma free_of_infix (w x y p q : list ascii) :
  free_of w x -> x = p ++ y ++ q -> free_of w y.
Proof.
  intros Hx -> a b E. apply (Hx (p ++ a) (b ++ q)). rewrite E. by rewrite <- !app_assoc.
Qed.

Lemma free_of_app_sep (w x y : list ascii) (sp : ascii) :
  sp ∉ w -> free_of w x -> free_of w y -> free_of w (x ++ sp :: y).
Proof.
  intros Hsp Hx Hy a b E.
  apply app_eq_inv in E as [(m & Ex & Hm)|(m & Ea & Hm)].
  - apply app_eq_inv in Hm as [(m' & Ew & Hm')|(m' & Em & Hb)].
    + destruct m' as [|d m'].
      * apply (Hx a []). rewrite Ex, Ew. by rewrite !app_nil_r.
      * injection Hm' as <- _. apply Hsp. rewrite Ew. apply elem_of_app. right.
        apply elem_of_cons. by left.
    + apply (Hx a m'). by rewrite Ex, Em.
  - destruct m as [|d m].
    + destruct w as [|e w].
      * apply (Hx [] x). reflexivity.
      * injection Hm as <- _. apply Hsp. apply elem_of_cons. by left.
    + injection Hm as _ Hy'. exact (Hy m b Hy').
Qed.

Lemma free_of_join (w : list ascii) (sp : ascii) (xs : list string) :
  w <> [] -> sp ∉ w -> Forall (fun x => free_of w (Py.to_list x)) xs ->
  free_of w (Py.to_list (Py.join (String sp "") xs)).
Proof.
  intros Hw Hsp Hxs. unfold Py.join. induction Hxs as [|x xs Hx Hxs IH].
  - intros a b E. simpl in E. apply (f_equal length) in E. rewrite !length_app in E.
    destruct w; [done|]. simpl in E. lia.
  - destruct xs as [|y ys]; [exact Hx|].
    change (String.concat (String sp "") (x :: y :: ys))
      with (x +:+ (String sp "" +:+ String.concat (String sp "") (y :: ys))).
    rewrite !to_list_app. change (Py.to_list (String sp "")) with [sp]. simpl.
    by apply free_of_app_sep.
Qed.

(** [splitlines]: a line holds no line boundary. *)
Lemma line_breaks_nonempty : Forall (fun w => w <> []) line_breaks.
Proof. vm_compute. repeat constructor; discriminate. Qed.

Lemma splitlines_inv_line (cur l : list ascii) :
  (forall w, w ∈ line_breaks -> forall a b, rev cur = a ++ b -> b <> [] ->
     ~ w `prefix_of` b ++ l) ->
  Forall (fun w => free_of w (rev cur)) line_breaks.
Proof.
  intros Hinv. apply Forall_forall. intros w Hw a b E.
  pose proof line_breaks_nonempty as Hne. rewrite Forall_forall in Hne.
  apply (Hinv w Hw a (w ++ b) E); [by destruct w; [destruct (Hne [] Hw)|]|].
  exists (b ++ l). by rewrite <- app_assoc.
Qed.

Lemma splitlines_aux_free (f : nat) (l cur : list ascii) :
  length l <= f ->
  (forall w, w ∈ line_breaks -> forall a b, rev cur = a ++ b -> b <> [] ->
     ~ w `prefix_of` b ++ l) ->
  Forall (fun s => Forall (fun w => free_of w (Py.to_list s)) line_breaks)
         (splitlines_aux f l cur).
Proof.
  revert l cur. induction f as [|f IH]; intros l cur Hl Hinv.
  - destruct l; [|simpl in Hl; lia]. simpl. destruct cur; [constructor|].
    constructor; [|constructor]. rewrite to_of. by apply (splitlines_inv_line _ []).
  - destruct l as [|c r].
    + simpl. destruct cur; [constructor|].
      constructor; [|constructor]. rewrite to_of. by apply (splitlines_inv_line _ []).
    + cbn [splitlines_aux]. destruct (Py.char_at line_breaks (c :: r)) as [w|] eqn:E.
      * constructor; [rewrite to_of; by apply (splitlines_inv_line _ (c :: r))|].
        apply IH.
        -- apply char_at_Some in E as [Hin _].
           pose proof line_breaks_nonempty as Hne. rewrite Forall_forall in Hne.
           specialize (Hne w Hin). rewrite length_drop. simpl in *. destruct w; [done|].
           simpl. lia.
        -- intros w' _ a b Eab Hb. simpl in Eab. by destruct a, b.
      * apply IH; [simpl in Hl; lia|].
        intros w Hw a b Eab Hb. destruct b as [|d b'] using rev_ind; [done|].
        simpl in Eab. rewrite app_assoc in Eab. apply app_inj_tail in Eab as [Ecur <-].
        destruct b' as [|d' b''].
        -- simpl. exact (proj1 (char_at_None line_breaks (c :: r)) E w Hw).
        -- rewrite <- app_assoc. simpl.
           apply (Hinv w Hw a (d' :: b'')); [exact Ecur | discriminate].
Qed.

Lemma splitlines_free (s : string) :
  Forall (fun ln => Forall (fun w => free_of w (Py.to_list ln)) line_breaks) (splitlines s).
Proof.
  apply splitlines_aux_free; [lia|]. intros w _ a b E Hb. simpl in E. by destruct a, b.
Qed.

(** The pieces of [s.split(sep)] are pieces of [s]. *)
Lemma split_str_aux_infix (sep : list ascii) (fuel : nat) (s l cur : list ascii) :
  (exists p, s = p ++ rev cur ++ l) ->
  Forall (fun x => exists a b, s = a ++ Py.to_list x ++ b)
         (Chunk.split_str_aux sep fuel l cur).
Proof.
  revert l cur. induction fuel as [|f IH]; intros l cur [p Hs]; simpl.
  - constructor; [|constructor]. rewrite to_of. exists p, []. by rewrite app_nil_r.
  - destruct l as [|c r].
    + constructor; [|constructor]. rewrite to_of. exists p, []. by rewrite Hs.
    + case_bool_decide.
      * constructor; [rewrite to_of; by exists p, (c :: r)|].
        apply IH. exists (p ++ rev cur ++ take (length sep) (c :: r)).
        rewrite Hs. simpl. rewrite <- !app_assoc. f_equal. f_equal.
        by rewrite take_drop.
      * apply IH. exists p. rewrite Hs. simpl. by rewrite <- app_assoc.
Qed.

Lemma split_str_infix (sep s : string) :
  Forall (fun x => exists a b, Py.to_list s = a ++ Py.to_list x ++ b) (Chunk.split_str sep s).
Proof. apply split_str_aux_infix. by exists []. Qed.

(** The text normalization shared by both cleaners. *)
Lemma clean_text_free (t : string) :
  Forall (fun w => free_of w (Py.to_list (clean_text t))) line_breaks.
Proof.
  apply Forall_forall. intros w Hw. unfold clean_text.
  apply free_of_join.
  { pose proof line_breaks_nonempty as Hne. rewrite Forall_forall in Hne. by apply Hne. }
  { revert w Hw. apply Forall_forall. apply (bool_decide_unpack _). vm_compute. reflexivity. }
  apply Forall_forall. intros x Hx.
  apply list_elem_of_filter in Hx as [_ Hx].
  apply list_elem_of_fmap in Hx as (y & -> & Hy).
  destruct (strip_infix y) as (p1 & q1 & E1).
  eapply free_of_infix; [|exact E1].
  apply list_elem_of_join in Hy as (ps & Hy & Hps).
  apply list_elem_of_fmap in Hps as (ln & -> & Hln).
  pose proof (split_str_infix "  " ln) as H2. rewrite Forall_forall in H2.
  destruct (H2 y Hy) as (p2 & q2 & E2).
  eapply free_of_infix; [|exact E2].
  apply list_elem_of_fmap in Hln as (l0 & -> & Hl0).
  destruct (strip_infix l0) as (p3 & q3 & E3).
  eapply free_of_infix; [|exact E3].
  pose proof (splitlines_free t) as H. rewrite Forall_forall in H.
  specialize (H l0 Hl0). rewrite Forall_forall in H. by apply H.
Qed.

Lemma clean_text_stripped (t : string) : Py.strip (clean_text t) = clean_text t.
Proof.
  unfold clean_text. apply strip_join_space.
  apply Forall_forall. intros x Hx.
  apply list_elem_of_filter in Hx as [Hne Hx].
  apply list_elem_of_fmap in Hx as (y & -> & _).
  split; [|apply strip_idem]. intros E. rewrite E in Hne. done.
Qed.


Lemma len_bytes_app (a b : list ascii) : Py.len_bytes (a ++ b) = Py.len_bytes a + Py.len_bytes b.
Proof. induction a as [|c a IH]; simpl; [reflexivity|]. rewrite IH. lia. Qed.

Lemma len_append (a b : string) : Py.len (a +:+ b) = Py.len a + Py.len b.
Proof. unfold Py.len. by rewrite to_list_app, len_bytes_app. Qed.

Lemma len_slice_to (n : nat) (s : string) : Py.len (Py.slice_to n s) = Nat.min n (Py.len s).
Proof.
  unfold Py.len, Py.slice_to. rewrite to_of. generalize (Py.to_list s) as l. clear s.
  intros l. revert n; induction l as [|c l IH]; intros n; cbn [Py.take_chars Py.len_bytes];
    [lia|].
  destruct (Py.is_cont c) eqn:Ec; cbn [Py.len_bytes]; rewrite ?Ec; [rewrite IH; lia|].
  destruct n as [|m]; cbn [Py.len_bytes]; rewrite ?Ec; [reflexivity|]. rewrite IH. lia.
Qed.

Lemma slice_to_all (n : nat) (s : string) : Py.len s <= n -> Py.slice_to n s = s.
Proof.
  unfold Py.len, Py.slice_to. intros H. rewrite <- (of_to s) at 2. f_equal.
  revert n H. generalize (Py.to_list s) as l. clear s.
  induction l as [|c l IH]; intros n H; cbn [Py.take_chars Py.len_bytes] in *; [reflexivity|].
  destruct (Py.is_cont c); [f_equal; by apply IH|].
  destruct n as [|m]; [lia|]. f_equal. apply IH. lia.
Qed.

Lemma prefix_refl_app (a b : string) : String.prefix a (a +:+ b) = true.
Proof.
  induction a as [|c a IH]; [by destruct b|]. rewrite append_String. simpl.
  destruct (ascii_dec c c); [exact IH | congruence].
Qed.

Lemma prefix_slice_to (n : nat) (s : string) : String.prefix (Py.slice_to n s) s = true.
Proof.
  unfold Py.slice_to. revert n; induction s as [|c s IH]; intros n; [reflexivity|].
  change (Py.to_list (String c s)) with (c :: Py.to_list s). cbn [Py.take_chars].
  assert (Hc : forall t, String.prefix (Py.of_list (c :: t)) (String c s)
                         = String.prefix (Py.of_list t) s).
  { intros t. simpl. destruct (ascii_dec c c); [reflexivity | congruence]. }
  destruct (Py.is_cont c); [rewrite Hc; apply IH|].
  destruct n as [|m]; [reflexivity|]. rewrite Hc. apply IH.
Qed.

(** The [s[:n] + suffix if len(s) > n else s] pattern. *)
Lemma cut_props (n : nat) (x s r : string) :
  r = (if n <? Py.len s then Py.slice_to n s +:+ x else s) ->
  Py.len r <= n + Py.len x
  /\ String.prefix (Py.slice_to n s) r = true
  /\ (Py.len s <= n -> r = s).
Proof.
  intros ->. destruct (Nat.ltb_spec n (Py.len s)) as [Hlt|Hge].
  - split; [rewrite len_append, len_slice_to; lia|].
    split; [apply prefix_refl_app | lia].
  - split; [lia|]. split; [apply prefix_slice_to | reflexivity].
Qed.

(** [list(s)] puts the characters back together into [s]. *)
Lemma chars_of_concat (l : list ascii) : mjoin (Py.chars_of l) = l.
Proof.
  induction l as [|c l IH]; [reflexivity|]. cbn [Py.chars_of].
  destruct (Py.chars_of l) as [|[|d p] ps] eqn:E; cbn [mjoin] in *; simpl in *;
    [by rewrite IH|by rewrite IH|].
  destruct (Py.is_cont d); simpl; by rewrite IH.
Qed.

Lemma chars_of_nonempty (l : list ascii) : Forall (fun p => p <> []) (Py.chars_of l).
Proof.
  induction l as [|c l IH]; cbn [Py.chars_of]; [constructor|].
  destruct (Py.chars_of l) as [|[|d p] ps] eqn:E.
  - repeat constructor; discriminate.
  - constructor; [discriminate | exact IH].
  - inversion IH; subst. destruct (Py.is_cont d); repeat constructor; try discriminate; done.
Qed.

(** ** Text cleaning *)

Lemma free_of_nil (w : list ascii) : w <> [] -> free_of w [].
Proof.
  intros Hw a b E. apply (f_equal length) in E. rewrite !length_app in E.
  destruct w; [done|]. simpl in E. lia.
Qed.

Lemma clean_text_normal (t : string) :
  Py.strip (clean_text t) = clean_text t
  /\ Forall (fun w => free_of w (Py.to_list (clean_text t))) line_breaks.
Proof. split; [apply clean_text_stripped | apply clean_text_free]. Qed.

(** [clean_dom_content] returns [""] for empty input. Markup the parser
    rejects comes back as its first 5000 characters; otherwise the result
    has no leading or trailing whitespace and holds no line boundary of
    [str.splitlines]. *)
Theorem clean_dom_content_normalized (L : lib) (html_content : string) :
  clean_dom_content L "" = ""
  /\ (Py.is_empty html_content = false -> parse_rejected L html_content <> None ->
      clean_dom_content L html_content = Py.slice_to 5000 html_content
      /\ Py.len (clean_dom_content L html_content) = Nat.min 5000 (Py.len html_content))
  /\ (parse_rejected L html_content = None ->
      Py.strip (clean_dom_content L html_content) = clean_dom_content L html_content
      /\ Forall (fun w => free_of w (Py.to_list (clean_dom_content L html_content)))
                line_breaks).
Proof.
  split; [reflexivity|]. unfold clean_dom_content. split.
  - intros -> Hr. destruct (parse_rejected L html_content); [|congruence].
    split; [reflexivity | apply len_slice_to].
  - intros Hr. destruct (Py.is_empty html_content).
    + split; [reflexivity|]. eapply Forall_impl; [exact line_breaks_nonempty|].
      intros w Hw. by apply free_of_nil.
    + rewrite Hr. apply clean_text_normal.
Qed.

Lemma clean_dom_content_normalized_witness :
  (Py.is_empty "<![UNKNOWN[]]>" = false /\ parse_rejected rejecting_lib "<![UNKNOWN[]]>" <> None
   /\ clean_dom_content rejecting_lib "<![UNKNOWN[]]>" = Py.slice_to 5000 "<![UNKNOWN[]]>")
  /\ (parse_rejected empty_lib " a " = None
      /\ Py.strip (clean_dom_content empty_lib " a ") = clean_dom_content empty_lib " a ").
Proof.
  split.
  - split; [reflexivity|]. split; [discriminate|].
    apply (proj1 (proj2 (clean_dom_content_normalized rejecting_lib "<![UNKNOWN[]]>"))
                 eq_refl ltac:(discriminate)).
  - split; [reflexivity|].
    apply (proj2 (proj2 (clean_dom_content_normalized empty_lib " a ")) eq_refl).
Defined.

(** [main.clean_html_content] hands back empty input and error strings
    (those starting with the marker) unchanged. Other markup the parser
    rejects gives the [except] message with the first 1000 characters of
    the input; what it accepts is normalized as [clean_dom_content] does. *)
Theorem clean_html_content_spec (L : lib) (html_content : string) :
  (Py.is_empty html_content || Py.startswith html_content error_marker = true ->
   clean_html_content L html_content = html_content)
  /\ (Py.is_empty html_content = false -> Py.startswith html_content error_marker = false ->
      forall msg, parse_rejected L html_content = Some msg ->
      clean_html_content L html_content
      = "Content extracted but couldn't clean it: " +:+ msg +:+ nl +:+ nl
        +:+ "Raw content: " +:+ Py.slice_to 1000 html_content +:+ "...")
  /\ (Py.is_empty html_content = false -> Py.startswith html_content error_marker = false ->
      parse_rejected L html_content = None ->
      Py.strip (clean_html_content L html_content) = clean_html_content L html_content
      /\ Forall (fun w => free_of w (Py.to_list (clean_html_content L html_content)))
                line_breaks).
Proof.
  unfold clean_html_content. split; [|split].
  - intros H. by rewrite H.
  - intros -> -> msg ->. reflexivity.
  - intros -> -> ->. apply clean_text_normal.
Qed.

Lemma clean_html_content_spec_witness :
  clean_html_content empty_lib all_failed_message = all_failed_message
  /\ clean_html_content rejecting_lib "<![UNKNOWN[]]>"
     = "Content extracted but couldn't clean it: expected name token" +:+ nl +:+ nl
       +:+ "Raw content: " +:+ Py.slice_to 1000 "<![UNKNOWN[]]>" +:+ "..."
  /\ Py.strip (clean_html_content empty_lib " a ") = clean_html_content empty_lib " a ".
Proof.
  split; [|split].
  - apply (proj1 (clean_html_content_spec empty_lib all_failed_message)). reflexivity.
  - apply (proj1 (proj2 (clean_html_content_spec rejecting_lib "<![UNKNOWN[]]>"))
             eq_refl eq_refl "expected name token" eq_refl).
  - apply (proj2 (proj2 (clean_html_content_spec empty_lib " a ")) eq_refl eq_refl eq_refl).
Defined.

(* ------------------------------------------------------------------ *)
(** ** [parse_with_llm] *)

(** The model receives at most 8000 characters of cleaned content plus
    the truncation note: the answer depends on the chain only through
    its call on that bounded content, which is the whole cleaned text
    when that has at most 8000 characters. *)
Theorem parse_with_llm_bounded_input (L : lib) (dom_content parse_description : string) :
  exists c,
    Py.len c <= 8000 + Py.len truncation_note
    /\ String.prefix (Py.slice_to 8000 (clean_dom_content L dom_content)) c = true
    /\ (Py.len (clean_dom_content L dom_content) <= 8000 ->
        c = clean_dom_content L dom_content)
    /\ forall invoke : chain,
         parse_with_llm L invoke dom_content parse_description
         = parse_with_llm L (fun _ q => invoke c q) dom_content parse_description.
Proof.
  exists (truncate_content (clean_dom_content L dom_content)).
  destruct (cut_props 8000 truncation_note (clean_dom_content L dom_content) _ eq_refl)
    as (H1 & H2 & H3).
  split; [exact H1|]. split; [exact H2|]. split; [exact H3|].
  intros invoke. reflexivity.
Qed.

(** [parse_with_llm] never returns the empty string: an answer of the
    model is stripped, and replaced by ["No matching information found."]
    when only whitespace is left; a failure of the chain gives
    ["Error during parsing: " + str(e)]. *)
Theorem parse_with_llm_answer (L : lib) (invoke : chain)
    (dom_content parse_description : string) :
  let answer := parse_with_llm L invoke dom_content parse_description in
  let c := truncate_content (clean_dom_content L dom_content) in
  answer <> ""
  /\ (forall r, invoke c parse_description = inl r ->
      Py.strip answer = answer
      /\ (Py.strip r = "" -> answer = "No matching information found.")
      /\ (Py.strip r <> "" -> answer = Py.strip r))
  /\ (forall m, invoke c parse_description = inr m -> answer = "Error during parsing: " +:+ m).
Proof.
  cbv zeta. unfold parse_with_llm.
  destruct (invoke _ parse_description) as [r|m] eqn:E.
  - destruct (Py.is_empty (Py.strip r)) eqn:Ee.
    + split; [discriminate|]. split; [|discriminate].
      intros r' [= <-]. split; [reflexivity|]. split; [done|].
      intros Hne. destruct (Py.strip r); [done | discriminate].
    + split; [intros Hs; rewrite Hs in Ee; discriminate|]. split; [|discriminate].
      intros r' [= <-]. split; [apply strip_idem|]. split; [|done].
      intros Hs. rewrite Hs in Ee. discriminate.
  - split; [rewrite append_String; discriminate|]. split; [discriminate|].
    intros m' [= <-]. reflexivity.
Qed.

(* ------------------------------------------------------------------ *)
(** ** [analyze_content_with_llm] *)

(** A chunk preview has at most 203 characters and starts with the first
    200 characters of the chunk; a chunk of at most 200 characters is its
    own preview. *)
Theorem chunk_preview_bounded (chunk : string) :
  Py.len (chunk_preview_of chunk) <= 203
  /\ String.prefix (Py.slice_to 200 chunk) (chunk_preview_of chunk) = true
  /\ (Py.len chunk <= 200 -> chunk_preview_of chunk = chunk).
Proof.
  destruct (cut_props 200 "..." chunk _ eq_refl) as (H1 & H2 & H3).
  change (Py.len "...") with 3 in H1.
  unfold chunk_preview_of. split; [lia|]. auto.
Qed.

(** Once the model is constructed, there is one entry per chunk, in
    order: the [i]-th (from 0) has [chunk_id = i + 1], the chunk's
    preview and its length, whether the model answered or failed. *)
Theorem analyze_one_entry_per_chunk (O : ollama) (chunks : list string)
    (analysis_type model_name : string) (Hinit : ollama_init O model_name = None) :
  length (analyze_content_with_llm O chunks analysis_type model_name) = length chunks
  /\ forall i chunk, chunks !! i = Some chunk ->
     exists a, analyze_content_with_llm O chunks analysis_type model_name !! i
               = Some (Entry (i + 1) (chunk_preview_of chunk) a (Py.len chunk)).
Proof.
  unfold analyze_content_with_llm. rewrite Hinit. split; [apply length_imap|].
  intros i chunk Hc. rewrite list_lookup_imap, Hc. simpl. unfold analyze_chunk.
  destruct (ollama_invoke _ _ _); eexists; reflexivity.
Qed.

Lemma analyze_one_entry_per_chunk_witness :
  length (analyze_content_with_llm echo_ollama ["a"; "b"] "summarize" "llama3.2") = 2
  /\ forall i chunk, ["a"; "b"] !! i = Some chunk ->
     exists a, analyze_content_with_llm echo_ollama ["a"; "b"] "summarize" "llama3.2" !! i
               = Some (Entry (i + 1) (chunk_preview_of chunk) a (Py.len chunk)).
Proof. apply (analyze_one_entry_per_chunk echo_ollama ["a"; "b"]). reflexivity. Defined.

(** A model failure on one chunk is confined to that chunk's entry: the
    [i]-th entry depends only on the [i]-th chunk, and when the call on it
    raises, that entry carries ["Error processing this chunk: " + str(e)]. *)
Theorem analyze_chunk_failure_isolated (O : ollama) (chunks1 chunks2 : list string)
    (analysis_type model_name : string) (i : nat)
    (Hinit : ollama_init O model_name = None) (Heq : chunks1 !! i = chunks2 !! i) :
  analyze_content_with_llm O chunks1 analysis_type model_name !! i
    = analyze_content_with_llm O chunks2 analysis_type model_name !! i
  /\ forall chunk msg, chunks1 !! i = Some chunk ->
     ollama_invoke O model_name (full_prompt (prompt_template analysis_type) chunk) = inr msg ->
     analyze_content_with_llm O chunks1 analysis_type model_name !! i
       = Some (Entry (i + 1) (chunk_preview_of chunk) ("Error processing this chunk: " +:+ msg)
                     (Py.len chunk)).
Proof.
  unfold analyze_content_with_llm. rewrite Hinit, !list_lookup_imap.
  split; [by rewrite Heq|]. intros chunk msg Hc Hm. rewrite Hc. simpl.
  unfold analyze_chunk. by rewrite Hm.
Qed.

Lemma analyze_chunk_failure_isolated_witness :
  analyze_content_with_llm picky_ollama ["a"; "b"] "summarize" "llama3.2" !! 0
    = analyze_content_with_llm picky_ollama ["a"] "summarize" "llama3.2" !! 0
  /\ forall chunk msg, ["a"; "b"] !! 0 = Some chunk ->
     ollama_invoke picky_ollama "llama3.2" (full_prompt (prompt_template "summarize") chunk)
       = inr msg ->
     analyze_content_with_llm picky_ollama ["a"; "b"] "summarize" "llama3.2" !! 0
       = Some (Entry (0 + 1) (chunk_preview_of chunk) ("Error processing this chunk: " +:+ msg)
                     (Py.len chunk)).
Proof.
  apply (analyze_chunk_failure_isolated picky_ollama ["a"; "b"] ["a"] "summarize" "llama3.2" 0);
    reflexivity.
Defined.

(** The result holds an error entry exactly when the model cannot be
    constructed; per-chunk failures are reported inside ordinary entries. *)
Theorem analyze_error_entry_iff (O : ollama) (chunks : list string)
    (analysis_type model_name : string) :
  (exists e, ErrorEntry e ∈ analyze_content_with_llm O chunks analysis_type model_name)
  <-> ollama_init O model_name <> None.
Proof.
  unfold analyze_content_with_llm. destruct (ollama_init O model_name) as [msg|].
  - split; [discriminate|]. intros _. eexists. apply elem_of_cons. by left.
  - split; [|congruence]. intros (e & He).
    apply list_elem_of_lookup in He as (i & Hi).
    rewrite list_lookup_imap in Hi. destruct (chunks !! i); simpl in Hi; [|discriminate].
    unfold analyze_chunk in Hi. destruct (ollama_invoke _ _ _); discriminate.
Qed.

(** The prompt is always one of the eight templates; an analysis type
    that is not a key (compared exactly) falls back to ["summarize"]. *)
Theorem prompt_template_fallback (analysis_type : string) :
  In (prompt_template analysis_type) (map snd prompts)
  /\ (prompt_lookup analysis_type = None ->
      prompt_template analysis_type = prompt_template "summarize").
Proof.
  unfold prompt_template. destruct (prompt_lookup analysis_type) as [p|] eqn:E.
  - split; [|discriminate]. simpl. unfold prompt_lookup in E.
    destruct (List.find _ prompts) as [[k v]|] eqn:F; [|discriminate].
    simpl in E. injection E as <-. apply List.find_some in F as [Hin _].
    exact (in_map snd _ _ Hin).
  - split; [cbv; left; reflexivity|]. intros _. reflexivity.
Qed.

Lemma prompt_template_fallback_witness :
  In (prompt_template "Summarize") (map snd prompts)
  /\ (prompt_lookup "Summarize" = None ->
      prompt_template "Summarize" = prompt_template "summarize")
  /\ prompt_template "Summarize" = prompt_template "summarize".
Proof.
  split; [exact (proj1 (prompt_template_fallback "Summarize"))|].
  split; [exact (proj2 (prompt_template_fallback "Summarize"))|].
  apply (proj2 (prompt_template_fallback "Summarize")). reflexivity.
Defined.

(* ------------------------------------------------------------------ *)
(** ** [get_parsing_suggestions] *)

Lemma omap_select_sublist (l : list (bool * string)) :
  omap (fun c : bool * string => if c.1 then Some c.2 else None) l `sublist_of` map snd l.
Proof.
  induction l as [|[b s] l IH]; simpl; [constructor|].
  destruct b; [by apply sublist_skip | by apply sublist_cons].
Qed.

Lemma elem_of_map_2 {A B} (f : A -> B) (l : list A) (x : A) : x ∈ l -> f x ∈ map f l.
Proof. rewrite !list_elem_of_In. apply in_map. Qed.

Lemma nodup_snd_unique (l : list (bool * string)) (b b' : bool) (s : string) :
  NoDup (map snd l) -> (b, s) ∈ l -> (b', s) ∈ l -> b = b'.
Proof.
  induction l as [|[c t] l IH]; intros Hnd H1 H2; [by apply elem_of_nil in H1|].
  simpl in Hnd. apply NoDup_cons in Hnd as [Hn Hnd].
  apply elem_of_cons in H1 as [E1|H1]; apply elem_of_cons in H2 as [E2|H2].
  - congruence.
  - exfalso. injection E1 as -> ->. apply Hn. exact (elem_of_map_2 snd _ _ H2).
  - exfalso. injection E2 as -> ->. apply Hn. exact (elem_of_map_2 snd _ _ H1).
  - by apply IH.
Qed.

(** A check among the first eight, with all labels distinct, is listed
    exactly when it holds. *)
Lemma select_prefix_iff (l1 l2 : list (bool * string)) (b : bool) (s : string) :
  length l1 <= 8 -> NoDup (map snd (l1 ++ l2)) -> (b, s) ∈ l1 ->
  (s ∈ take 8 (omap (fun c : bool * string => if c.1 then Some c.2 else None) (l1 ++ l2))
   <-> b = true).
Proof.
  intros Hlen Hnd Hin. rewrite omap_app, take_app.
  rewrite (take_ge (omap _ l1)).
  2:{ pose proof (sublist_length _ _ (omap_select_sublist l1)) as Hs.
      rewrite length_map in Hs. lia. }
  rewrite map_app in Hnd. apply NoDup_app in Hnd as (Hnd1 & Hdisj & _).
  split.
  - intros Hs. apply elem_of_app in Hs as [Hs|Hs].
    + apply list_elem_of_omap in Hs as ([b' s'] & Hin' & Hsel). simpl in Hsel.
      destruct b'; [|discriminate]. injection Hsel as ->.
      exact (nodup_snd_unique l1 b true s Hnd1 Hin Hin').
    + exfalso. apply (Hdisj s (elem_of_map_2 snd _ _ Hin)).
      apply (elem_of_sublist _ _ _ Hs).
      etransitivity; [apply sublist_take | apply omap_select_sublist].
  - intros ->. apply elem_of_app. left.
    apply list_elem_of_omap. exists (true, s). by split.
Qed.

(** At most eight suggestions, without repetition. On markup the parser
    accepts each is one of the eleven labels the analysis knows; on markup
    it rejects the [except] branch gives the six generic suggestions. *)
Theorem parsing_suggestions_shape (L : lib) (re_search : searcher) (dom_content : string) :
  length (get_parsing_suggestions L re_search dom_content) <= 8
  /\ NoDup (get_parsing_suggestions L re_search dom_content)
  /\ (parse_rejected L dom_content = None ->
      forall s, s ∈ get_parsing_suggestions L re_search dom_content -> s ∈ suggestion_labels)
  /\ (parse_rejected L dom_content <> None ->
      get_parsing_suggestions L re_search dom_content = fallback_suggestions).
Proof.
  unfold get_parsing_suggestions. destruct (parse_rejected L dom_content) as [m|].
  { split; [simpl; lia|]. split; [apply (bool_decide_unpack _); vm_compute; exact I|].
    split; [discriminate | reflexivity]. }
  cbv zeta.
  set (checks := structural_checks _ ++ _).
  assert (Hsub : take 8 (omap (fun c : bool * string => if c.1 then Some c.2 else None) checks)
                   `sublist_of` suggestion_labels).
  { etransitivity; [apply sublist_take|].
    replace suggestion_labels with (map snd checks) by reflexivity.
    apply omap_select_sublist. }
  split; [rewrite length_take; lia|]. split.
  - eapply sublist_NoDup; [|exact Hsub]. apply (bool_decide_unpack _). vm_compute. exact I.
  - split; [|congruence]. intros _ s Hs. exact (elem_of_sublist _ _ _ Hs Hsub).
Qed.

Lemma parsing_suggestions_shape_witness :
  (parse_rejected (lib_of rich_tree []) "" = None
   /\ forall s, s ∈ get_parsing_suggestions (lib_of rich_tree []) match_all "" ->
                s ∈ suggestion_labels)
  /\ (parse_rejected rejecting_lib "<![UNKNOWN[]]>" <> None
      /\ get_parsing_suggestions rejecting_lib match_all "<![UNKNOWN[]]>"
         = fallback_suggestions).
Proof.
  split.
  - split; [reflexivity|].
    exact (proj1 (proj2 (proj2 (parsing_suggestions_shape (lib_of rich_tree []) match_all "")))
             eq_refl).
  - split; [discriminate|].
    apply (proj2 (proj2 (proj2 (parsing_suggestions_shape rejecting_lib match_all
                                  "<![UNKNOWN[]]>")))).
    discriminate.
Defined.

(** Each structural suggestion (headings, paragraphs, links with
    [href], images, lists, tables, forms) is listed exactly when the page
    has such an element: the cut to eight never drops one of them. This
    holds for markup the parser accepts. *)
Theorem structural_suggestion_iff (L : lib) (re_search : searcher) (dom_content : string)
    (Hok : parse_rejected L dom_content = None)
    (b : bool) (s : string) (Hin : (b, s) ∈ structural_checks (html_parse L dom_content)) :
  s ∈ get_parsing_suggestions L re_search dom_content <-> b = true.
Proof.
  unfold get_parsing_suggestions. rewrite Hok. cbv zeta.
  apply select_prefix_iff; [simpl; lia | | exact Hin].
  apply (bool_decide_unpack _). vm_compute. exact I.
Qed.

Lemma structural_suggestion_iff_witness :
  parse_rejected (lib_of rich_tree []) "" = None
  /\ (true, "All links and URLs") ∈ structural_checks (html_parse (lib_of rich_tree []) "")
  /\ ("All links and URLs" ∈ get_parsing_suggestions (lib_of rich_tree []) match_all ""
      <-> true = true).
Proof.
  assert (H : (true, "All links and URLs")
                ∈ structural_checks (html_parse (lib_of rich_tree []) "")).
  { apply (bool_decide_unpack _). vm_compute. exact I. }
  split; [reflexivity|]. split; [exact H|].
  exact (structural_suggestion_iff (lib_of rich_tree []) match_all "" eq_refl true _ H).
Defined.

(** On a page with all seven structural elements and an e-mail address,
    the cut to eight keeps the e-mail suggestion and drops phone numbers,
    prices and dates, whatever the text holds. *)
Theorem parsing_suggestions_cut (L : lib) (re_search : searcher) (dom_content : string)
    (Hok : parse_rejected L dom_content = None)
    (Hs : Forall (fun c : bool * string => c.1 = true)
                 (structural_checks (html_parse L dom_content)))
    (He : re_search email_pattern (Soup.get_text (html_parse L dom_content)) false = true) :
  get_parsing_suggestions L re_search dom_content = take 8 suggestion_labels.
Proof.
  unfold get_parsing_suggestions. rewrite Hok. cbv zeta. unfold structural_checks in *.
  repeat (apply Forall_cons in Hs as [? Hs]). simpl in *.
  repeat match goal with H : bool_decide _ = true |- _ => rewrite H; clear H end.
  rewrite He. reflexivity.
Qed.

Lemma parsing_suggestions_cut_witness :
  get_parsing_suggestions (lib_of rich_tree []) match_all "" = take 8 suggestion_labels.
Proof.
  apply parsing_suggestions_cut; [reflexivity| |reflexivity].
  vm_compute. repeat constructor.
Defined.

(* ------------------------------------------------------------------ *)
(** ** [scrape_website]: inputs, fallback and result *)

(** [normalize_url] leaves URLs starting with ["http://"] or ["https://"]
    (case-sensitive) alone, prefixes anything else with ["https://"], and
    is idempotent. *)
Theorem normalize_url_spec (website : string) :
  (Py.startswith (normalize_url website) "http://"
   || Py.startswith (normalize_url website) "https://") = true
  /\ normalize_url (normalize_url website) = normalize_url website
  /\ (Py.startswith website "http://" || Py.startswith website "https://" = false ->
      normalize_url website = "https://" +:+ website).
Proof.
  unfold normalize_url.
  destruct (Py.startswith website "http://" || Py.startswith website "https://") eqn:E.
  - rewrite ?E. split; [reflexivity|]. split; [reflexivity | discriminate].
  - assert (H : Py.startswith ("https://" +:+ website) "https://" = true)
      by apply prefix_refl_app.
    rewrite H, orb_true_r. split; [reflexivity|]. split; reflexivity.
Qed.

Lemma normalize_url_spec_witness :
  ((Py.startswith (normalize_url "example.com") "http://"
    || Py.startswith (normalize_url "example.com") "https://") = true
   /\ normalize_url (normalize_url "example.com") = normalize_url "example.com"
   /\ (Py.startswith "example.com" "http://" || Py.startswith "example.com" "https://" = false ->
       normalize_url "example.com" = "https://" +:+ "example.com"))
  /\ normalize_url "example.com" = "https://example.com".
Proof.
  split; [exact (normalize_url_spec "example.com")|].
  apply (normalize_url_spec "example.com"). reflexivity.
Defined.

(** Strategy B runs exactly when the HTTP request raises, answers with a
    4xx or 5xx status, or answers with an empty body. *)
Theorem scrape_website_selenium_iff (L : lib) (W : world) (website : string)
    (parse_dom : bool) (Hne : website <> "") :
  let w := normalize_url website in
  In (Selenium, w) (snd (scrape_website L W website parse_dom))
  <-> (exists e, http_get W w = Raise e)
      \/ (exists r, http_get W w = Ok r
                    /\ ((400 <= status_code r /\ status_code r < 600) \/ response_text r = "")).
Proof.
  intros w. rewrite (scrape_website_unfold L W website parse_dom Hne). fold w. simpl.
  unfold scrape_with_requests.
  destruct (http_get W w) as [r|e].
  - destruct ((400 <=? status_code r) && (status_code r <? 600)) eqn:E.
    + apply andb_true_iff in E as [E1 E2].
      apply Nat.leb_le in E1. apply Nat.ltb_lt in E2. simpl.
      split; [intros _; right; exists r; split; [done | left; lia]|].
      intros _. right. left. reflexivity.
    + simpl. destruct (response_text r) as [|c t] eqn:T; simpl.
      * split; [intros _; right; exists r; split; [done | right; exact T]|].
        intros _. right. left. reflexivity.
      * split; [intros [H|[]]; discriminate|].
        intros [[e' He]|(r' & [= <-] & [[H1 H2]|H])]; [discriminate| |congruence].
        apply andb_false_iff in E as [E|E];
          [apply Nat.leb_gt in E | apply Nat.ltb_ge in E]; lia.
  - simpl. split; [intros _; left; by exists e|]. intros _. right. left. reflexivity.
Qed.

Lemma scrape_website_selenium_iff_witness :
  "example.com" <> ""
  /\ (In (Selenium, normalize_url "example.com")
         (snd (scrape_website empty_lib fallback_world "example.com" false))
      <-> (exists e, http_get fallback_world (normalize_url "example.com") = Raise e)
          \/ (exists r, http_get fallback_world (normalize_url "example.com") = Ok r
                        /\ ((400 <= status_code r /\ status_code r < 600)
                            \/ response_text r = ""))).
Proof.
  split; [discriminate|].
  apply (scrape_website_selenium_iff empty_lib fallback_world "example.com" false).
  discriminate.
Defined.

(** What [scrape_website] returns on a non-empty input: one of the two
    failure strings or non-empty markup produced by a strategy, the
    markup inside a bundle with its parsed document and the normalized
    URL when [parse_dom] is set. *)
Theorem scrape_website_result_shape (L : lib) (W : world) (website : string)
    (parse_dom : bool) (Hne : website <> "") :
  let w := normalize_url website in
  fst (scrape_website L W website parse_dom) = RStr all_failed_message
  \/ exists h, h <> ""
       /\ (scrape_with_requests W w = Some h \/ scrape_with_selenium W w = Some h)
       /\ fst (scrape_website L W website parse_dom)
          = if parse_dom then RBundle h (parse_dom_content L h w) w else RStr h.
Proof.
  intros w. rewrite (scrape_website_unfold L W website parse_dom Hne). fold w. simpl.
  destruct (truthy (scrape_with_requests W w)) eqn:Ht.
  - destruct (scrape_with_requests W w) as [h|] eqn:Ea; [|discriminate].
    destruct (Py.is_empty h) eqn:Eh; [by left|]. right. exists h.
    split; [by destruct h|]. split; [by left | reflexivity].
  - destruct (scrape_with_selenium W w) as [h|] eqn:Eb; [|by left].
    destruct (Py.is_empty h) eqn:Eh; [by left|]. right. exists h.
    split; [by destruct h|]. split; [by right | reflexivity].
Qed.

Lemma scrape_website_result_shape_witness :
  "example.com" <> ""
  /\ (fst (scrape_website empty_lib marker_world "example.com" true) = RStr all_failed_message
      \/ exists h, h <> ""
         /\ (scrape_with_requests marker_world (normalize_url "example.com") = Some h
             \/ scrape_with_selenium marker_world (normalize_url "example.com") = Some h)
         /\ fst (scrape_website empty_lib marker_world "example.com" true)
            = if true then RBundle h (parse_dom_content empty_lib h (normalize_url "example.com"))
                                   (normalize_url "example.com")
              else RStr h).
Proof.
  split; [discriminate|].
  apply (scrape_website_result_shape empty_lib marker_world "example.com" true).
  discriminate.
Defined.

(** With [parse_dom] set, the callers' marker test flags exactly the two
    failure strings: fetched markup always comes back in a bundle, even a
    page whose text starts with the marker. *)
Theorem scrape_website_failure_iff (L : lib) (W : world) (website : string) :
  is_failure (fst (scrape_website L W website true)) = true
  <-> fst (scrape_website L W website true) = RStr invalid_url_message
      \/ fst (scrape_website L W website true) = RStr all_failed_message.
Proof.
  destruct website as [|c r]; [simpl; split; [by left | done]|].
  rewrite (scrape_website_unfold L W (String c r) true ltac:(discriminate)). simpl.
  destruct (truthy _);
    [destruct (scrape_with_requests _ _) as [h|] | destruct (scrape_with_selenium _ _) as [h|]];
    try destruct (Py.is_empty h); simpl;
    first [ split; [intros _; by right | done]
          | split; [discriminate | intros [H|H]; discriminate] ].
Qed.

Lemma bundle_document (L : lib) (h u : string) (chunk_size chunk_overlap : nat) :
  Py.is_empty h = false ->
  h <> ""
  /\ (parse_dom_content L h u = None <->
      Py.startswith h error_marker = true \/ parse_rejected L h <> None
      \/ exists e, parse_dom_body L (html_parse L h) u = Raise e)
  /\ (parse_dom_content L h u = None ->
      create_content_chunks L (CBundle h (parse_dom_content L h u) u) chunk_size chunk_overlap
      = Raise TypeError).
Proof.
  intros E. split; [by destruct h|]. split.
  - unfold parse_dom_content. rewrite E. simpl.
    destruct (Py.startswith h error_marker); simpl; [split; [by left | done]|].
    destruct (parse_rejected L h) as [m|].
    { split; [intros _; right; left; discriminate | done]. }
    destruct (parse_dom_body L (html_parse L h) u) as [d|e].
    + split; [discriminate|]. intros [H|[H|(e & H)]]; [discriminate | congruence | discriminate].
    + split; [intros _; right; right; by exists e | done].
  - intros Hn. rewrite Hn. reflexivity.
Qed.

(** [create_content_chunks] on a bundle from [scrape_website]: the bundle
    carries non-empty markup, the normalized URL and the document parsed
    from them; when that document is [None] (markup starting with the
    marker, markup the parser rejects, or an extraction step raising)
    chunking raises [TypeError]. *)
Theorem scrape_then_chunk (L : lib) (W : world) (website : string) (h : string)
    (dom : option dom_data) (u : string) (chunk_size chunk_overlap : nat)
    (H : fst (scrape_website L W website true) = RBundle h dom u) :
  u = normalize_url website /\ h <> "" /\ dom = parse_dom_content L h u
  /\ (dom = None <-> Py.startswith h error_marker = true \/ parse_rejected L h <> None
                     \/ exists e, parse_dom_body L (html_parse L h) u = Raise e)
  /\ (dom = None -> create_content_chunks L (CBundle h dom u) chunk_size chunk_overlap
                    = Raise TypeError).
Proof.
  assert (Hne : website <> "").
  { intros ->. discriminate H. }
  rewrite (scrape_website_unfold L W website true Hne) in H. simpl in H.
  destruct (truthy _);
    [destruct (scrape_with_requests _ _) as [h0|] | destruct (scrape_with_selenium _ _) as [h0|]];
    try discriminate H;
    destruct (Py.is_empty h0) eqn:E; try discriminate H;
    injection H as <- <- <-;
    destruct (bundle_document L h0 (normalize_url website) chunk_size chunk_overlap E)
      as (H1 & H2 & H3);
    repeat split; auto; apply H2.
Qed.

Lemma scrape_then_chunk_witness :
  let h := error_marker +:+ " blocked" in
  let u := "https://example.com" in
  fst (scrape_website empty_lib marker_world "example.com" true) = RBundle h None u
  /\ (u = normalize_url "example.com" /\ h <> "" /\ None = parse_dom_content empty_lib h u
      /\ (@None dom_data = None <-> Py.startswith h error_marker = true
                         \/ parse_rejected empty_lib h <> None
                         \/ exists e, parse_dom_body empty_lib (html_parse empty_lib h) u = Raise e)
      /\ (@None dom_data = None -> create_content_chunks empty_lib (CBundle h None u) 1000 200
                        = Raise TypeError)).
Proof.
  cbv zeta. split; [reflexivity|].
  apply (scrape_then_chunk empty_lib marker_world "example.com"). reflexivity.
Defined.

(* ------------------------------------------------------------------ *)
(** ** [create_content_chunks]: errors and chunks *)

(** Invalid splitter parameters (a zero size, or an overlap above the
    size) raise [ValueError], except where building the text raises
    first: [TypeError] on a bundle without a document,
    [ParserRejectedMarkup] on a string the parser rejects. *)
Theorem create_content_chunks_bad_params (L : lib) (c : content)
    (chunk_size chunk_overlap : nat)
    (Hbad : chunk_size = 0 \/ chunk_size < chunk_overlap) :
  create_content_chunks L c chunk_size chunk_overlap
  = match c with
    | CBundle _ None _ => Raise TypeError
    | CStr s =>
        match parse_rejected L s with
        | Some _ => Raise ParserRejectedMarkup
        | None => Raise ValueError
        end
    | _ => Raise ValueError
    end.
Proof.
  assert (Hs : forall t, Chunk.split_text chunk_size chunk_overlap t = Raise ValueError).
  { intros t. unfold Chunk.split_text.
    destruct Hbad as [->|Hlt]; [reflexivity|].
    destruct (chunk_size =? 0); [reflexivity|].
    apply Nat.ltb_lt in Hlt. by rewrite Hlt. }
  unfold create_content_chunks.
  destruct c as [h [d|] u|s|r]; simpl; try destruct (parse_rejected L s); try apply Hs;
    reflexivity.
Qed.

Lemma create_content_chunks_bad_params_witness :
  create_content_chunks empty_lib (COther "text") 100 200 = Raise ValueError.
Proof. apply (create_content_chunks_bad_params empty_lib (COther "text") 100 200). lia. Defined.

Lemma foldl_inv {A B} (F : A -> B -> A) (P : A -> Prop) (l : list B) (acc : A) :
  P acc -> (forall acc x, x ∈ l -> P acc -> P (F acc x)) -> P (foldl F acc l).
Proof.
  revert acc. induction l as [|x l IH]; intros acc Hacc Hstep; simpl; [done|].
  apply IH; [apply Hstep; [apply elem_of_cons; by left | done]|].
  intros acc' y Hy. apply Hstep. apply elem_of_cons. by right.
Qed.

Lemma join_docs_nonempty (docs : list string) (sep doc : string) :
  Chunk.join_docs docs sep = Some doc -> doc <> "".
Proof.
  unfold Chunk.join_docs. destruct (Py.is_empty _) eqn:E; [discriminate|].
  intros [= <-] H. rewrite H in E. discriminate.
Qed.

Lemma merge_splits_nonempty (chunk_size chunk_overlap : nat) (splits : list string)
    (sep : string) :
  Forall (fun s => s <> "") (Chunk.merge_splits chunk_size chunk_overlap splits sep).
Proof.
  unfold Chunk.merge_splits.
  match goal with |- context [foldl ?F ?a splits] =>
    pose proof (foldl_inv F (fun '(docs, _, _) => Forall (fun s => s <> "") docs) splits a)
      as Hinv end.
  destruct (foldl _ _ splits) as [[docs current] total].
  assert (Hd : Forall (fun s => s <> "") docs).
  { apply Hinv; [constructor|]. clear Hinv.
    intros [[docs' current'] total'] x _ Hdocs. simpl.
    destruct (chunk_size <? _); [|exact Hdocs].
    destruct current' as [|y ys]; [exact Hdocs|].
    destruct (Chunk.join_docs (y :: ys) sep) as [doc|] eqn:J;
      destruct (Chunk.shrink _ _ _ _ _ _) as [cur tot]; simpl;
      [apply Forall_app_2; [done | constructor; [exact (join_docs_nonempty _ _ _ J)|constructor]]
      | exact Hdocs]. }
  destruct (Chunk.join_docs current sep) as [doc|] eqn:J; [|exact Hd].
  apply Forall_app_2; [done|]. constructor; [exact (join_docs_nonempty _ _ _ J) | constructor].
Qed.

Lemma split_with_separator_nonempty (text sep s : string) :
  s ∈ Chunk.split_with_separator text sep -> s <> "".
Proof.
  unfold Chunk.split_with_separator. intros H.
  apply list_elem_of_filter in H as [H _]. intros ->. exact H.
Qed.

Lemma split_text_rec_nonempty (chunk_size chunk_overlap fuel : nat)
    (seps : list string) (text : string) :
  Forall (fun s => s <> "") (Chunk.split_text_rec chunk_size chunk_overlap fuel seps text).
Proof.
  revert seps text. induction fuel as [|f IH]; intros seps text; simpl; [constructor|].
  destruct (Chunk.choose_separator seps seps text) as [separator new_separators].
  match goal with |- context [foldl ?F ?a ?l] =>
    pose proof (foldl_inv F (fun '(final, good) =>
                   Forall (fun s => s <> "") final /\ Forall (fun s => s <> "") good) l a)
      as Hinv end.
  destruct (foldl _ _ _) as [final good].
  destruct Hinv as [Hf Hg]; [split; constructor| |].
  - intros [final' good'] s Hs [Hf Hg]. simpl.
    pose proof (split_with_separator_nonempty _ _ _ Hs) as Hsne.
    destruct (Py.len s <? chunk_size).
    + split; [done|]. apply Forall_app_2; [done | by constructor].
    + assert (Hf' : Forall (fun s => s <> "")
                      match good' with
                      | [] => final'
                      | _ => final' ++ Chunk.merge_splits chunk_size chunk_overlap good' ""
                      end).
      { destruct good'; [done|]. apply Forall_app_2; [done | apply merge_splits_nonempty]. }
      destruct new_separators; (split; [|constructor]); apply Forall_app_2; auto.
  - destruct good; [done|]. apply Forall_app_2; [done | apply merge_splits_nonempty].
Qed.

(** [create_content_chunks] never returns an empty chunk. *)
Theorem create_content_chunks_nonempty (L : lib) (c : content)
    (chunk_size chunk_overlap : nat) (chunks : list string)
    (H : create_content_chunks L c chunk_size chunk_overlap = Ok chunks) :
  Forall (fun s => s <> "") chunks.
Proof.
  unfold create_content_chunks, mbind, result_bind in H.
  destruct (match c with
            | CBundle _ dom _ => dom_text dom
            | CStr s =>
                match parse_rejected L s with
                | Some _ => Raise ParserRejectedMarkup
                | None => Ok (Soup.get_text (decompose ["script"; "style"] (html_parse L s)))
                end
            | COther r => Ok r
            end) as [t|e]; [|discriminate].
  unfold Chunk.split_text in H.
  destruct (chunk_size =? 0); [discriminate|].
  destruct (chunk_size <? chunk_overlap); [discriminate|].
  injection H as <-.
  exact (split_text_rec_nonempty chunk_size chunk_overlap (S (length Chunk.separators))
           Chunk.separators (Py.strip (collapse_ws t))).
Qed.

Lemma create_content_chunks_nonempty_witness :
  create_content_chunks empty_lib (COther "aaaa bbbb cccc") 10 3 = Ok ["aaaa bbbb"; "cccc"]
  /\ Forall (fun s => s <> "") ["aaaa bbbb"; "cccc"].
Proof.
  assert (H : create_content_chunks empty_lib (COther "aaaa bbbb cccc") 10 3
              = Ok ["aaaa bbbb"; "cccc"]) by reflexivity.
  split; [exact H|]. exact (create_content_chunks_nonempty _ _ _ _ _ H).
Defined.

(* ------------------------------------------------------------------ *)
(** ** [parse_dom_content]: the stored fields *)

Lemma find_all_name (names : list string) (soup n : Soup.node) :
  n ∈ Soup.find_all names soup -> Soup.name n ∈ names.
Proof.
  unfold Soup.find_all. intros H. apply list_elem_of_filter in H as [H _].
  destruct n as [s|t a cs]; [done|]. simpl in *.
  unfold Py.mem in H. apply Is_true_true_1, existsb_exists in H as (x & Hx & E).
  unfold Py.str_eqb in E. apply String.eqb_eq in E as ->. by apply list_elem_of_In.
Qed.

Lemma strip_map_stripped {A} (f : A -> string) (xs : list A) :
  Forall (fun s => Py.strip s = s) (map (fun x => Py.strip (f x)) xs).
Proof.
  apply Forall_forall. intros s Hs. apply list_elem_of_fmap in Hs as (x & -> & _).
  apply strip_idem.
Qed.

(** A loop that maps each element to [Ok None] or [Ok (Some _)] and keeps
    the [Some] results pairs them, in order, with the elements kept by the
    test that tells the two cases apart. *)
Lemma select_forall2 {A B} (f : A -> result (option B)) (P : A -> bool) (R : A -> B -> Prop)
    (xs : list A) (ys : list (option B)) :
  Forall2 (fun x y => f x = Ok y) xs ys ->
  (forall x y, f x = Ok y ->
     match y with None => P x = false | Some b => P x = true /\ R x b end) ->
  Forall2 R (filter (fun x => P x) xs) (omap id ys).
Proof.
  intros H Hf. induction H as [|x y xs ys Hxy _ IH]; [constructor|].
  pose proof (Hf x y Hxy) as Hy. destruct y as [b|]; simpl.
  - destruct Hy as [HP HR]. rewrite filter_cons_True by (rewrite HP; exact I).
    constructor; assumption.
  - rewrite filter_cons_False by (rewrite Hy; auto). exact IH.
Qed.

(** The stored links are, in order and one for one, the anchors with an
    [href] whose stripped text is non-empty (an anchor whose text is only
    whitespace, such as [&nbsp;], is skipped): a link's text is the
    anchor's stripped text and its URL the [href] resolved against the
    base URL. *)
Theorem links_from_anchors (L : lib) (html base : string) (d : dom_data)
    (H : parse_dom_content L html base = Some d) :
  Forall2 (fun a l => link_text l = Py.strip (Soup.get_text a) /\ link_text l <> ""
                      /\ Py.strip (link_text l) = link_text l
                      /\ Url.urljoin base (Soup.get_or a "href" "") = Ok (link_url l))
    (filter (fun a => negb (Py.is_empty (Py.strip (Soup.get_text a))))
            (filter (fun a => Soup.has_attr a "href") (Soup.find_all ["a"] (html_parse L html))))
    (links d).
Proof.
  destruct (parse_dom_content_fields L html base d H) as (_ & Hls & _).
  unfold extract_links in Hls.
  destruct (mapM _ _) as [ls|e] eqn:Em; [|discriminate].
  injection Hls as Hls. rewrite <- Hls.
  apply (select_forall2 (extract_link base)
           (fun a => negb (Py.is_empty (Py.strip (Soup.get_text a))))); [by apply mapM_Ok|].
  intros a y Hx. unfold extract_link, mbind, result_bind in Hx.
  destruct (Url.urljoin base _) as [u|] eqn:Eu; [|discriminate].
  destruct (Py.is_empty (Py.strip (Soup.get_text a))) eqn:Et; [injection Hx as <-; reflexivity|].
  destruct (Url.urlparse u "") as [lp|]; [|discriminate].
  destruct (Url.urlparse base "") as [bp|]; [|discriminate].
  injection Hx as <-. simpl. split; [reflexivity|].
  split; [reflexivity|]. split; [intros E; rewrite E in Et; discriminate|].
  split; [apply strip_idem | reflexivity].
Qed.

Lemma links_from_anchors_witness :
  exists d, parse_dom_content (lib_of anchors_tree []) anchors_markup "https://example.com"
            = Some d
  /\ links d = [Link "Home" "https://example.com/a" false]
  /\ Forall2 (fun a l => link_text l = Py.strip (Soup.get_text a) /\ link_text l <> ""
                         /\ Py.strip (link_text l) = link_text l
                         /\ Url.urljoin "https://example.com" (Soup.get_or a "href" "")
                            = Ok (link_url l))
       (filter (fun a => negb (Py.is_empty (Py.strip (Soup.get_text a))))
               (filter (fun a => Soup.has_attr a "href")
                       (Soup.find_all ["a"] (html_parse (lib_of anchors_tree []) anchors_markup))))
       (links d).
Proof.
  eexists. split; [vm_compute; reflexivity|]. split; [vm_compute; reflexivity|].
  match goal with |- Forall2 _ _ (links ?d) =>
    assert (H : parse_dom_content (lib_of anchors_tree []) anchors_markup "https://example.com"
                = Some d) by (vm_compute; reflexivity) end.
  exact (links_from_anchors _ _ _ _ H).
Defined.

(** The stored images are, in order and one for one, the [img] elements
    with a non-empty [src]: an image's source is the [src] resolved
    against the base URL, its [alt] and [title] the attributes, [""] when
    absent. *)
Theorem images_from_img (L : lib) (html base : string) (d : dom_data)
    (H : parse_dom_content L html base = Some d) :
  Forall2 (fun i im => Url.urljoin base (Soup.get_or i "src" "") = Ok (img_src im)
                       /\ img_alt im = Soup.get_or i "alt" ""
                       /\ img_title im = Soup.get_or i "title" "")
    (filter (fun i => negb (Py.is_empty (Soup.get_or i "src" "")))
            (Soup.find_all ["img"] (html_parse L html)))
    (images d).
Proof.
  destruct (parse_dom_content_fields L html base d H) as (_ & _ & His & _).
  unfold extract_images in His.
  destruct (mapM _ _) as [ys|e] eqn:Em; [|discriminate].
  injection His as His. rewrite <- His.
  apply (select_forall2 (extract_image base)
           (fun i => negb (Py.is_empty (Soup.get_or i "src" "")))); [by apply mapM_Ok|].
  intros i y Hx. unfold extract_image, mbind, result_bind in Hx.
  destruct (Py.is_empty (Soup.get_or i "src" "")) eqn:E; [injection Hx as <-; reflexivity|].
  destruct (Url.urljoin base _) as [u|] eqn:Eu; [|discriminate].
  injection Hx as <-. simpl. auto.
Qed.

Lemma images_from_img_witness :
  exists d, parse_dom_content (lib_of gallery_tree []) gallery_markup "https://example.com"
            = Some d
  /\ images d = [Image "https://example.com/a.png" "A" "";
                 Image "https://example.com/b.png" "" "B"]
  /\ Forall2 (fun i im => Url.urljoin "https://example.com" (Soup.get_or i "src" "")
                          = Ok (img_src im)
                          /\ img_alt im = Soup.get_or i "alt" ""
                          /\ img_title im = Soup.get_or i "title" "")
       (filter (fun i => negb (Py.is_empty (Soup.get_or i "src" "")))
               (Soup.find_all ["img"] (html_parse (lib_of gallery_tree []) gallery_markup)))
       (images d).
Proof.
  eexists. split; [vm_compute; reflexivity|]. split; [vm_compute; reflexivity|].
  match goal with |- Forall2 _ _ (images ?d) =>
    assert (H : parse_dom_content (lib_of gallery_tree []) gallery_markup "https://example.com"
                = Some d) by (vm_compute; reflexivity) end.
  exact (images_from_img _ _ _ _ H).
Defined.

(** Every stored list is a [ul] or an [ol] with at least one item, each
    item a stripped text. *)
Theorem lists_shape (L : lib) (html base : string) (d : dom_data)
    (H : parse_dom_content L html base = Some d) :
  Forall (fun ul => (list_type ul = "ul" \/ list_type ul = "ol")
                    /\ list_items ul <> []
                    /\ Forall (fun s => Py.strip s = s) (list_items ul)) (lists d).
Proof.
  destruct (parse_dom_content_fields L html base d H) as (_ & _ & _ & _ & _ & _ & Hl & _).
  rewrite Hl. unfold extract_lists. apply Forall_forall. intros ul Hul.
  apply list_elem_of_omap in Hul as (n & Hn & Hs).
  apply find_all_name in Hn.
  destruct (map _ (Soup.find_all ["li"] n)) as [|i is] eqn:Ei; [discriminate|].
  injection Hs as <-. simpl. split.
  - apply elem_of_cons in Hn as [->|Hn]; [by left|].
    apply elem_of_cons in Hn as [->|Hn]; [by right | by apply elem_of_nil in Hn].
  - split; [discriminate|]. rewrite <- Ei. apply strip_map_stripped.
Qed.

Lemma lists_shape_witness :
  exists d, parse_dom_content (lib_of rich_tree []) "<ul><li>i</li></ul>" "https://example.com"
            = Some d
  /\ Forall (fun ul => (list_type ul = "ul" \/ list_type ul = "ol")
                       /\ list_items ul <> []
                       /\ Forall (fun s => Py.strip s = s) (list_items ul)) (lists d).
Proof.
  eexists. split; [vm_compute; reflexivity|].
  match goal with |- Forall _ (lists ?d) =>
    assert (H : parse_dom_content (lib_of rich_tree []) "<ul><li>i</li></ul>" "https://example.com"
                = Some d) by (vm_compute; reflexivity) end.
  exact (lists_shape _ _ _ _ H).
Defined.

(** Every text the extractor stores is stripped: the title, the
    headings, the paragraphs (which are also non-empty) and the table
    cells. *)
Theorem stored_texts_stripped (L : lib) (html base : string) (d : dom_data)
    (H : parse_dom_content L html base = Some d) :
  Py.strip (title d) = title d
  /\ Forall (fun s => Py.strip s = s)
            (h1 (dom_headings d) ++ h2 (dom_headings d) ++ h3 (dom_headings d))
  /\ Forall (fun p => p <> "" /\ Py.strip p = p) (paragraphs d)
  /\ Forall (fun s => Py.strip s = s) (mjoin (mjoin (tables d))).
Proof.
  destruct (parse_dom_content_fields L html base d H)
    as (Ht & _ & _ & _ & Hh & Hp & _ & Htb & _).
  split; [|split; [|split]].
  - unfold extract_title in Ht.
    destruct (Soup.find "title" _) as [t|]; [|injection Ht as <-; reflexivity].
    destruct (Soup.string_of t); [|discriminate]. injection Ht as <-. apply strip_idem.
  - rewrite Hh. simpl. unfold texts_of.
    apply Forall_app_2; [|apply Forall_app_2]; apply strip_map_stripped.
  - rewrite Hp. unfold extract_paragraphs. apply Forall_forall. intros p Hp'.
    apply list_elem_of_filter in Hp' as [Hne Hp'].
    split; [intros ->; exact Hne|].
    unfold texts_of in Hp'. apply list_elem_of_In, in_map_iff in Hp' as (x & <- & _).
    apply strip_idem.
  - rewrite Htb. unfold extract_tables. apply Forall_forall. intros s Hs.
    apply list_elem_of_join in Hs as (row & Hs & Hrow).
    apply list_elem_of_join in Hrow as (rows & Hrow & Hrows).
    apply list_elem_of_omap in Hrows as (tb & _ & Htr).
    destruct (table_rows tb) as [|r0 rs] eqn:Er; [discriminate|]. injection Htr as <-.
    rewrite <- Er in Hrow. unfold table_rows in Hrow.
    apply list_elem_of_omap in Hrow as (tr & _ & Hr).
    destruct (map _ (Soup.find_all ["td"; "th"] tr)) as [|c0 cs] eqn:Ec; [discriminate|].
    injection Hr as <-. rewrite <- Ec in Hs.
    apply list_elem_of_In, in_map_iff in Hs as (x & <- & _). apply strip_idem.
Qed.

Lemma stored_texts_stripped_witness :
  parse_dom_content (lib_of table_tree []) table_markup "https://example.com"
    = Some (DomData "No title found" "" (Headings [] [] []) [] [] [] [] [[["A"; "B"]]] []
              (ContactInfo [] [] []))
  /\ Forall (fun s => Py.strip s = s) (mjoin (mjoin [[["A"; "B"]]])).
Proof.
  assert (H : parse_dom_content (lib_of table_tree []) table_markup "https://example.com"
              = Some (DomData "No title found" "" (Headings [] [] []) [] [] [] []
                        [[["A"; "B"]]] [] (ContactInfo [] [] []))) by (vm_compute; reflexivity).
  split; [exact H|]. exact (proj2 (proj2 (proj2 (stored_texts_stripped _ _ _ _ H)))).
Defined.

(** Forms are never dropped, unlike empty lists and tables: one form per
    [form] element, in order, with one input per [input], [textarea] or
    [select] element below it. *)
Theorem forms_all_kept (L : lib) (html base : string) (d : dom_data)
    (H : parse_dom_content L html base = Some d) :
  map (fun f => length (form_inputs f)) (forms d)
  = map (fun f => length (Soup.find_all ["input"; "textarea"; "select"] f))
        (Soup.find_all ["form"] (html_parse L html)).
Proof.
  destruct (parse_dom_content_fields L html base d H) as (_ & _ & _ & _ & _ & _ & _ & _ & Hf & _).
  rewrite Hf. unfold extract_forms. rewrite map_map. apply map_ext. intros f.
  simpl. apply length_map.
Qed.

Lemma forms_all_kept_witness :
  exists d, parse_dom_content (lib_of form_tree []) form_markup "https://example.com" = Some d
  /\ map (fun f => length (form_inputs f)) (forms d)
     = map (fun f => length (Soup.find_all ["input"; "textarea"; "select"] f))
           (Soup.find_all ["form"] (html_parse (lib_of form_tree []) form_markup)).
Proof.
  eexists. split; [vm_compute; reflexivity|].
  match goal with |- map _ (forms ?d) = _ =>
    assert (H : parse_dom_content (lib_of form_tree []) form_markup "https://example.com"
                = Some d) by (vm_compute; reflexivity) end.
  exact (forms_all_kept _ _ _ _ H).
Defined.

(* ------------------------------------------------------------------ *)
(** ** [create_content_chunks]: splitting keeps the text, short text is one chunk *)

(** [_merge_splits] of splits that fit together in one chunk joins them
    all. *)
Lemma merge_splits_short (cs co : nat) (xs : list string) :
  sum_list_with Py.len xs <= cs ->
  Chunk.merge_splits cs co xs "" = match Chunk.join_docs xs "" with Some doc => [doc] | None => [] end.
Proof.
  intros Hs. unfold Chunk.merge_splits. cbv zeta.
  match goal with |- context [foldl ?F ?a xs] => set (F0 := F) end.
  assert (Hf : forall ys cur total, total + sum_list_with Py.len ys <= cs ->
                 foldl F0 ([], cur, total) ys = ([], cur ++ ys, total + sum_list_with Py.len ys)).
  { induction ys as [|y ys IH]; intros cur total H.
    - simpl. by rewrite app_nil_r, Nat.add_0_r.
    - assert (Hstep : F0 ([], cur, total) y = ([], cur ++ [y], total + Py.len y)).
      { unfold F0. cbn beta iota zeta.
        replace (cs <? total + Py.len y + (if bool_decide (cur = []) then 0 else Py.len ""))
          with false by (symmetry; apply Nat.ltb_ge; cbn [sum_list_with] in H;
                         change (Py.len "") with 0; destruct (bool_decide _); lia).
        change (Py.len "") with 0. destruct (bool_decide _); f_equal; lia. }
      change (foldl F0 ([], cur, total) (y :: ys)) with (foldl F0 (F0 ([], cur, total) y) ys).
      rewrite Hstep, IH. 2:{ rewrite <- Nat.add_assoc. exact H. } rewrite <- app_assoc. simpl. by rewrite Nat.add_assoc. }
  rewrite (Hf xs [] 0); [|lia]. reflexivity.
Qed.

Lemma split_str_aux_cons (sep : list ascii) (fuel : nat) (l cur : list ascii) :
  Chunk.split_str_aux sep fuel l cur <> [].
Proof.
  revert l cur. induction fuel as [|f IH]; intros l cur; simpl; [done|].
  destruct l as [|c r]; [done|]. case_bool_decide; [done|apply IH].
Qed.

Lemma split_str_aux_glue (sep : list ascii) (fuel : nat) (l cur : list ascii) :
  glue sep (Chunk.split_str_aux sep fuel l cur) = rev cur ++ l.
Proof.
  revert l cur. induction fuel as [|f IH]; intros l cur; simpl.
  - by rewrite app_nil_r, to_of.
  - destruct l as [|c r].
    + simpl. by rewrite to_of, !app_nil_r.
    + case_bool_decide as Hp.
      * pose proof (IH (drop (length sep) (c :: r)) []) as IH'.
        pose proof (split_str_aux_cons sep f (drop (length sep) (c :: r)) []) as Hne.
        destruct (Chunk.split_str_aux sep f (drop (length sep) (c :: r)) []) as [|p0 qs]; [done|].
        simpl in IH' |- *. rewrite to_of. f_equal.
        destruct Hp as [k Hk]. rewrite Hk, drop_app_length in IH'.
        rewrite Hk, <- IH', app_assoc. reflexivity.
      * rewrite IH. simpl. by rewrite <- app_assoc.
Qed.

Lemma concat_empty_to_list (xs : list string) :
  Py.to_list (String.concat "" xs) = mjoin (map Py.to_list xs).
Proof.
  induction xs as [|x xs IH]; [reflexivity|].
  destruct xs as [|y ys].
  - simpl. by rewrite app_nil_r.
  - change (String.concat "" (x :: y :: ys)) with (x +:+ ("" +:+ String.concat "" (y :: ys))).
    rewrite append_Empty, to_list_app, IH. reflexivity.
Qed.

Lemma mjoin_filter_nonempty (xs : list string) :
  mjoin (map Py.to_list (filter (fun s => negb (Py.is_empty s)) xs)) = mjoin (map Py.to_list xs).
Proof.
  induction xs as [|x xs IH]; [reflexivity|].
  rewrite filter_cons. destruct x as [|c s]; simpl; [exact IH|].
  by rewrite IH.
Qed.

Lemma split_with_separator_concat (text sep : string) :
  mjoin (map Py.to_list (Chunk.split_with_separator text sep)) = Py.to_list text.
Proof.
  unfold Chunk.split_with_separator. rewrite mjoin_filter_nonempty.
  destruct (Py.is_empty sep) eqn:Es.
  - unfold Py.chars. rewrite map_map.
    rewrite (map_ext _ (fun w => w) to_of), map_id. apply chars_of_concat.
  - unfold Chunk.split_str.
    pose proof (split_str_aux_glue (Py.to_list sep) (String.length text) (Py.to_list text) []) as G.
    pose proof (split_str_aux_cons (Py.to_list sep) (String.length text) (Py.to_list text) []) as Hne.
    destruct (Chunk.split_str_aux _ _ _ _) as [|p0 ps]; [done|].
    simpl in G |- *. rewrite <- G. f_equal. rewrite map_map.
      f_equal. apply map_ext. intros q. apply to_list_app.
Qed.

(** [_split_text_with_regex] with [keep_separator=True] loses nothing:
    the pieces, concatenated, give the text back, for every separator. *)
Theorem split_with_separator_roundtrip (text sep : string) :
  String.concat "" (Chunk.split_with_separator text sep) = text.
Proof.
  transitivity (Py.of_list (Py.to_list (String.concat "" (Chunk.split_with_separator text sep)))).
  - symmetry. apply of_to.
  - rewrite concat_empty_to_list, split_with_separator_concat. apply of_to.
Qed.

Lemma sum_length_mjoin (xs : list string) :
  sum_list_with Py.len xs = Py.len_bytes (mjoin (map Py.to_list xs)).
Proof.
  induction xs as [|x xs IH]; [reflexivity|].
  simpl. rewrite len_bytes_app. f_equal. exact IH.
Qed.

Lemma elem_length_le_sum (xs : list string) (x : string) :
  x ∈ xs -> Py.len x <= sum_list_with Py.len xs.
Proof.
  induction xs as [|y ys IH]; intros Hx; [by apply elem_of_nil in Hx|].
  apply elem_of_cons in Hx as [->|Hx]; simpl; [lia|].
  specialize (IH Hx). lia.
Qed.

(** [_split_text] on a stripped non-empty text shorter than the chunk
    size returns that text alone. *)
Lemma split_text_rec_short (cs co fuel : nat) (seps : list string) (text : string) :
  text <> "" -> Py.strip text = text -> Py.len text < cs ->
  Chunk.split_text_rec cs co (S fuel) seps text = [text].
Proof.
  intros Hne Hst Hlt. simpl.
  destruct (Chunk.choose_separator seps seps text) as [sep news].
  set (splits := Chunk.split_with_separator text sep).
  assert (Hsum : sum_list_with Py.len splits = Py.len text).
  { unfold splits. by rewrite sum_length_mjoin, split_with_separator_concat. }
  match goal with |- context [foldl ?F ?a splits] => set (F0 := F) end.
  assert (Hf : forall ys good, (forall y, y ∈ ys -> Py.len y < cs) ->
                 foldl F0 ([], good) ys = ([], good ++ ys)).
  { induction ys as [|y ys IH]; intros good Hy.
    - simpl. by rewrite app_nil_r.
    - change (foldl F0 ([], good) (y :: ys)) with (foldl F0 (F0 ([], good) y) ys).
      assert (Hstep : F0 ([], good) y = ([], good ++ [y])).
      { unfold F0. replace (Py.len y <? cs) with true; [reflexivity|].
        symmetry. apply Nat.ltb_lt, Hy, elem_of_cons. by left. }
      rewrite Hstep, IH, <- app_assoc; [reflexivity|].
      intros z Hz. apply Hy, elem_of_cons. by right. }
  rewrite (Hf splits []).
  2:{ intros y Hy. pose proof (elem_length_le_sum splits y Hy). lia. }
  simpl. destruct splits as [|s0 ss] eqn:Es.
  - exfalso. apply Hne. rewrite <- (split_with_separator_roundtrip text sep).
    fold splits. by rewrite Es.
  - rewrite <- Es. rewrite <- Es in Hsum. rewrite merge_splits_short; [|lia].
    unfold Chunk.join_docs, Py.join, splits.
    rewrite split_with_separator_roundtrip, Hst.
    by destruct text.
Qed.

(** A text whose normalized form is non-empty and shorter than
    [chunk_size] comes back as a single chunk, that normalized text,
    whenever the splitter accepts its parameters. *)
Theorem create_content_chunks_short (L : lib) (c : content)
    (chunk_size chunk_overlap : nat) (t : string)
    (Hin : chunk_input L c = Ok t) (Hne : t <> "")
    (Hlt : Py.len t < chunk_size) (Hco : chunk_overlap <= chunk_size) :
  create_content_chunks L c chunk_size chunk_overlap = Ok [t].
Proof.
  unfold create_content_chunks, chunk_input, mbind, result_bind in *.
  destruct (match c with
            | CBundle _ dom _ => dom_text dom
            | CStr s =>
                match parse_rejected L s with
                | Some _ => Raise ParserRejectedMarkup
                | None => Ok (Soup.get_text (decompose ["script"; "style"] (html_parse L s)))
                end
            | COther r => Ok r
            end) as [x|e]; [|discriminate].
  injection Hin as Ht. unfold Chunk.split_text.
  replace (chunk_size =? 0) with false by (symmetry; apply Nat.eqb_neq; lia).
  replace (chunk_size <? chunk_overlap) with false by (symmetry; apply Nat.ltb_ge; lia).
  rewrite Ht, split_text_rec_short; [reflexivity|exact Hne| |exact Hlt].
  rewrite <- Ht. apply strip_idem.
Qed.

Lemma create_content_chunks_short_witness :
  create_content_chunks empty_lib (COther (" hello" +:+ String "194" (String "160" " world ")))
    100 10
  = Ok ["hello world"].
Proof.
  apply (create_content_chunks_short empty_lib
           (COther (" hello" +:+ String "194" (String "160" " world "))) 100 10 "hello world");
    [vm_compute; reflexivity | discriminate | apply Nat.ltb_lt; reflexivity | lia].
Defined.
